(** * Pyroxy: the request pipeline of [main.py], embedded and verified

    The development follows the source top-down:

    - Python values and insertion-ordered dicts (pages and header sets are
      dicts in the source, and the encoder mutates them in place);
    - [ResponseCache]: the store with lazy expiry and full-clear eviction;
    - the remote fetcher ([get_page_info], [get_raw_page],
      [get_page_contents], [get_page]) over an explicit environment that
      stands for the [requests] session, the codec registry, [int] and
      [json.dumps];
    - [create_response] and [process_request].

    Conventions.  Every call of [time.time()] is an input of the function
    that makes it (a field of [Clock] for the pipeline, the argument [now]
    for the store); timestamps are rationals, that is, float arithmetic is
    read as exact, except that the sum at line 65 raises [OverflowError]
    for an integer beyond the float range, as Python's conversion does
    ([response_cache_set]); the rounding of a float sum is not modelled
    ([float_sum_exact] says when there is none).  A Python exception is a
    [Raise] result.  The dict held by a cache entry is the very object the
    encoder mutates, so the pipeline writes the mutated page back to the
    entry it came from. *)

From Stdlib Require Import ZArith QArith String Ascii List Lia.
From stdpp Require Import gmap strings list fin_maps pretty.

Local Open Scope Z_scope.

(** ** Constants (main.py, lines 19-21) *)

Definition VERSION : string := "1.0.0".
Definition DEFAULT_CACHE_TIME : Z := 60 * 60.
Definition MIN_CACHE_TIME : Z := 5 * 60.

(** ** Python values *)

Definition bytes := list Byte.byte.

#[warnings="-register-all"] Inductive PyVal : Type :=
| VNone
| VStr (s : string)
| VInt (z : Z)
| VFloat (q : Q)
| VBytes (b : bytes)
| VDict (kvs : list (string * PyVal)).

(** A dict with string keys, in insertion order. *)
Abbreviation PyDict := (list (string * PyVal)).

(** Truth value of an object, as [if x:] and [not x] test it. *)
Definition truthy (v : PyVal) : bool :=
  match v with
  | VNone => false
  | VStr s => negb (String.eqb s "")
  | VInt z => negb (z =? 0)
  | VFloat q => negb (Qeq_bool q 0)
  | VBytes b => negb (Nat.eqb (List.length b) 0)
  | VDict kvs => negb (Nat.eqb (List.length kvs) 0)
  end.

Definition opt_str (o : option string) : PyVal :=
  match o with Some s => VStr s | None => VNone end.

(** [json.dumps] raises [TypeError] on a [bytes] object anywhere in its
    argument; every other value of the model is serialisable. *)
Fixpoint json_serialisable (v : PyVal) : bool :=
  match v with
  | VBytes _ => false
  | VDict kvs => forallb (fun kv => json_serialisable (snd kv)) kvs
  | _ => true
  end.

Module Dict.

(** [d.get(k)] *)
Fixpoint get (d : PyDict) (k : string) : option PyVal :=
  match d with
  | [] => None
  | (k', v) :: r => if String.eqb k' k then Some v else get r k
  end.

(** [d.get(k, dflt)] *)
Definition get_default (d : PyDict) (k : string) (dflt : PyVal) : PyVal :=
  default dflt (get d k).

(** [d[k] = v]: an existing key keeps its position, a new one is appended. *)
Fixpoint set (d : PyDict) (k : string) (v : PyVal) : PyDict :=
  match d with
  | [] => [(k, v)]
  | (k', v') :: r =>
      if String.eqb k' k then (k, v) :: r else (k', v') :: set r k v
  end.

End Dict.

(** ** Strings *)

(** [str.lower()] on the ASCII range (the only letters the comparisons of
    the source can match: "info", "raw", "utf-8"). *)
Definition lower_ascii (c : ascii) : ascii :=
  let n := nat_of_ascii c in
  if (Nat.leb 65 n && Nat.leb n 90)%bool then ascii_of_nat (n + 32) else c.

Fixpoint lower (s : string) : string :=
  match s with
  | EmptyString => EmptyString
  | String c r => String (lower_ascii c) (lower r)
  end.

(** Whether a string contains the key separator [":"]. *)
Fixpoint has_colon (s : string) : bool :=
  match s with
  | EmptyString => false
  | String c r => if Ascii.eqb c ":" then true else has_colon r
  end.

(** ** The cache store (main.py, lines 40-66) *)

Module ResponseCache.

(** The dict [{'data': value, 'expiry': ...}] of one entry. *)
Record item := Item { data : PyDict; expiry : Q }.

Record t := Make { cache : gmap string item; max_size : Z }.

(** [__init__(self, max_size=1000)] *)
Definition init (max_size : Z) : t := Make ∅ max_size.
Definition default_max_size : Z := 1000.

(** [item['expiry'] > time.time()] *)
Definition fresh (i : item) (now : Q) : bool := negb (Qle_bool (expiry i) now).

(** [get(self, key)]; [now] is what [time.time()] returns at line 50. *)
Definition get (self : t) (key : string) (now : Q) : option PyDict * t :=
  match cache self !! key with
  | Some i =>
      if fresh i now then (Some (data i), self)
      else (None, Make (delete key (cache self)) (max_size self))
  | None => (None, self)
  end.

(** [set(self, key, value, expiry_seconds)] when the call returns; [now] is
    what [time.time()] returns at line 65.  The sum of line 65 is taken in
    the rationals, without the rounding of a float sum.  The call that
    raises at line 65 is [response_cache_set] below. *)
Definition set (self : t) (key : string) (value : PyDict)
    (expiry_seconds : Z) (now : Q) : t :=
  let kept :=
    if (max_size self <=? Z.of_nat (size (cache self)))
    then ∅ else cache self in
  Make (<[key := Item value (now + inject_Z expiry_seconds)%Q]> kept)
       (max_size self).

(** One call of [set], as data. *)
Record insertion := Insertion {
  ins_key : string; ins_value : PyDict; ins_ttl : Z; ins_now : Q }.

Definition apply_insertion (self : t) (i : insertion) : t :=
  set self (ins_key i) (ins_value i) (ins_ttl i) (ins_now i).

Definition set_all (self : t) (l : list insertion) : t :=
  fold_left apply_insertion l self.

Definition entry_of (i : insertion) : item :=
  Item (ins_value i) (ins_now i + inject_Z (ins_ttl i))%Q.

End ResponseCache.

(** ** Exceptions and results *)

Inductive exn :=
| ValueError
| LookupError
| TypeError
| OverflowError
| OtherError (name : string).

Inductive Result (A : Type) : Type :=
| Ok (a : A)
| Raise (e : exn).
Arguments Ok {A} a.
Arguments Raise {A} e.

Definition is_ok {A} (r : Result A) : bool :=
  match r with Ok _ => true | Raise _ => false end.

Definition result_map {A B} (f : A -> B) (r : Result A) : Result B :=
  match r with Ok a => Ok (f a) | Raise e => Raise e end.

(** ** The outside world *)

(** What the process does that an observer outside can see: outbound HTTP
    calls and calls of [bytes.decode]. *)
Inductive Event :=
| EvRequest (method : string) (url : option string)
| EvDecode (charset : string).

Definition is_decode (e : Event) : bool :=
  match e with EvDecode _ => true | EvRequest _ _ => false end.

(** A [requests.Response]: headers are looked up case-insensitively in the
    source, so the map is keyed by lower-case names. *)
Record HttpResponse := {
  status_code : Z;
  resp_headers : gmap string string;
  content : bytes }.

(** What a call of the session gives: a response, a
    [requests.RequestException] with its message (the class the fetchers
    catch), or any other exception the call lets through (urllib3's
    [LocationParseError] for a malformed host, for one), which no handler
    of the fetchers catches. *)
Inductive HttpOutcome :=
| HttpOk (r : HttpResponse)
| RequestException (msg : string)
| HttpRaises (e : exn).

(** [bytes.decode(charset)]: a string, a [UnicodeError] (the class both
    fetchers catch), or another exception, such as the [LookupError] of
    an unknown codec name. *)
Inductive DecodeOutcome :=
| Decoded (s : string)
| DecodeUnicodeError
| DecodeRaises (e : exn).

(** The library functions the pipeline calls.  [session_request] may depend
    on everything that happened before; [int_of_str] is [int] on a [str],
    with [None] for [ValueError]; [json_text] is the text [json.dumps]
    returns for a serialisable value; [repr_text] is [str] on the values
    that are neither strings, integers nor [None]. *)
Record Env := {
  session_request : list Event -> string -> option string -> HttpOutcome;
  bytes_decode : string -> bytes -> DecodeOutcome;
  decode_utf8_replace : bytes -> string;
  str_encode_utf8 : string -> option bytes;
  int_of_str : string -> option Z;
  json_text : PyVal -> string;
  repr_text : PyVal -> string }.

(** [int(x)] for a string. *)
Definition py_int (env : Env) (s : string) : Result Z :=
  match int_of_str env s with Some n => Ok n | None => Raise ValueError end.

(** [str(x)] *)
Definition py_str (env : Env) (v : PyVal) : string :=
  match v with
  | VStr s => s
  | VInt z => pretty z
  | VNone => "None"
  | _ => repr_text env v
  end.

(** [json.dumps(x)] *)
Definition json_dumps (env : Env) (v : PyVal) : Result string :=
  if json_serialisable v then Ok (json_text env v) else Raise TypeError.

(** [if charset:] on an optional string. *)
Definition given (charset : option string) : option string :=
  match charset with
  | Some cs => if String.eqb cs "" then None else Some cs
  | None => None
  end.

(** ** The remote fetcher (main.py, lines 73-160)

    A fetcher takes the trace so far and returns its result with the
    extended trace. *)

Definition Fetch (A : Type) : Type := list Event -> Result A * list Event.

(** [get_page_info(url)] *)
Definition get_page_info (env : Env) (url : option string) : Fetch PyDict :=
  fun tr =>
    let tr1 := tr ++ [EvRequest "HEAD" url] in
    match session_request env tr "HEAD" url with
    | RequestException msg => (Ok [("error", VStr msg)], tr1)
    | HttpRaises e => (Raise e, tr1)
    | HttpOk r =>
        let content_length :=
          match resp_headers r !! "content-length" with
          | Some s => py_int env s
          | None => Ok (-1)
          end in
        match content_length with
        | Ok n =>
            (Ok [("url", opt_str url);
                 ("content_type", opt_str (resp_headers r !! "content-type"));
                 ("content_length", VInt n);
                 ("http_code", VInt (status_code r))], tr1)
        | Raise e => (Raise e, tr1)
        end
    end.

Definition raw_page (r : HttpResponse) (body : bytes) : PyDict :=
  [("content", VBytes body);
   ("contentType", opt_str (resp_headers r !! "content-type"));
   ("contentLength", VInt (Z.of_nat (List.length body)))].

(** [get_raw_page(url, request_method, charset)] *)
Definition get_raw_page (env : Env) (url : option string)
    (request_method : string) (charset : option string) : Fetch PyDict :=
  fun tr =>
    let tr1 := tr ++ [EvRequest request_method url] in
    match session_request env tr request_method url with
    | RequestException msg => (Ok [("error", VStr msg)], tr1)
    | HttpRaises e => (Raise e, tr1)
    | HttpOk r =>
        match given charset with
        | Some cs =>
            if String.eqb (lower cs) "utf-8" then (Ok (raw_page r (content r)), tr1)
            else
              let tr2 := tr1 ++ [EvDecode cs] in
              match bytes_decode env cs (content r) with
              | Decoded s =>
                  match str_encode_utf8 env s with
                  | Some b => (Ok (raw_page r b), tr2)
                  | None => (Ok (raw_page r (content r)), tr2)
                  end
              | DecodeUnicodeError => (Ok (raw_page r (content r)), tr2)
              | DecodeRaises e => (Raise e, tr2)
              end
        | None => (Ok (raw_page r (content r)), tr1)
        end
    end.

Definition contents_page (url : option string) (r : HttpResponse)
    (text : string) : PyDict :=
  [("contents", VStr text);
   ("status", VDict
      [("url", opt_str url);
       ("content_type", opt_str (resp_headers r !! "content-type"));
       ("content_length", VInt (Z.of_nat (List.length (content r))));
       ("http_code", VInt (status_code r))])].

Definition contents_error (msg : string) : PyDict :=
  [("contents", VNone); ("status", VDict [("error", VStr msg)])].

(** [get_page_contents(url, request_method, charset)] *)
Definition get_page_contents (env : Env) (url : option string)
    (request_method : string) (charset : option string) : Fetch PyDict :=
  fun tr =>
    let tr1 := tr ++ [EvRequest request_method url] in
    match session_request env tr request_method url with
    | RequestException msg => (Ok (contents_error msg), tr1)
    | HttpRaises e => (Raise e, tr1)
    | HttpOk r =>
        match given charset with
        | Some cs =>
            let tr2 := tr1 ++ [EvDecode cs] in
            match bytes_decode env cs (content r) with
            | Decoded s => (Ok (contents_page url r s), tr2)
            | DecodeUnicodeError =>
                (Ok (contents_page url r (decode_utf8_replace env (content r))),
                 tr2 ++ [EvDecode "utf-8"])
            | DecodeRaises e => (Raise e, tr2)
            end
        | None =>
            (Ok (contents_page url r (decode_utf8_replace env (content r))),
             tr1 ++ [EvDecode "utf-8"])
        end
    end.

(** The three branches of [get_page]. *)
Inductive Route := RouteInfo | RouteRaw | RouteContents.

Definition route (params : gmap string string) : Route :=
  let fmt := lower (default "json" (params !! "format")) in
  let request_method := default "GET" (params !! "requestMethod") in
  if (String.eqb fmt "info" || String.eqb request_method "HEAD")%bool then RouteInfo
  else if String.eqb fmt "raw" then RouteRaw
  else RouteContents.

(** [get_page(params)] *)
Definition get_page (env : Env) (params : gmap string string) : Fetch PyDict :=
  let url := params !! "url" in
  let request_method := default "GET" (params !! "requestMethod") in
  let charset := params !! "charset" in
  match route params with
  | RouteInfo => get_page_info env url
  | RouteRaw => get_raw_page env url request_method charset
  | RouteContents => get_page_contents env url request_method charset
  end.

(** ** The response encoder (main.py, lines 207-260) *)

(** The arguments of one [Response(...)] call; [mimetype = None] when the
    call gives none. *)
Record Response := {
  body : PyVal;
  headers : PyDict;
  mimetype : option string }.

(** The media type on the wire: Flask lets the [mimetype] argument replace a
    [Content-Type] entry of [headers]. *)
Definition served_content_type (r : Response) : PyVal :=
  match mimetype r with
  | Some m => VStr m
  | None => Dict.get_default (headers r) "Content-Type" VNone
  end.

(** [request.method in ["GET", "HEAD"]] *)
Definition cacheable_method (method : string) : bool :=
  (String.eqb method "GET" || String.eqb method "HEAD")%bool.

(** [params.get("disableCache") == "true"] *)
Definition cache_disabled (params : gmap string string) : bool :=
  match params !! "disableCache" with
  | Some v => String.eqb v "true"
  | None => false
  end.

(** [int(params.get("cacheMaxAge", DEFAULT_CACHE_TIME))] *)
Definition requested_max_age (env : Env) (params : gmap string string) : Result Z :=
  match params !! "cacheMaxAge" with
  | Some s => py_int env s
  | None => Ok DEFAULT_CACHE_TIME
  end.

(** [max(MIN_CACHE_TIME, int(params.get("cacheMaxAge", DEFAULT_CACHE_TIME)))] *)
Definition floor_max_age (env : Env) (params : gmap string string) : Result Z :=
  result_map (Z.max MIN_CACHE_TIME) (requested_max_age env params).

(** Lines 212-221: the headers every response starts from. *)
Definition base_headers (env : Env) (params : gmap string string)
    (method : string) : Result PyDict :=
  let via h := Dict.set h "Via" (VStr ("pyroxy-py v" +:+ VERSION)) in
  if cacheable_method method then
    let max_age :=
      if cache_disabled params then Ok 0 else floor_max_age env params in
    match max_age with
    | Ok n =>
        Ok (via (Dict.set [] "Cache-Control"
                   (VStr ("public, max-age=" +:+ pretty n +:+ ", stale-if-error=600"))))
    | Raise e => Raise e
    end
  else Ok (via []).

(** [fmt == "raw" and not page.get("error")] *)
Definition raw_passthrough (params : gmap string string) (page : PyDict) : bool :=
  match params !! "format" with
  | Some fmt =>
      (String.eqb fmt "raw" && negb (truthy (Dict.get_default page "error" VNone)))%bool
  | None => false
  end.

(** Lines 236-239: the in-place update of the page; a [status] that is not
    a dict does not support item assignment. *)
Definition inject_response_time (page : PyDict) (response_time : Q) : Result PyDict :=
  match Dict.get page "status" with
  | Some (VDict st) =>
      Ok (Dict.set page "status" (VDict (Dict.set st "response_time" (VFloat response_time))))
  | Some _ => Raise TypeError
  | None => Ok (Dict.set page "response_time" (VFloat response_time))
  end.

(** Lines 241-260: the JSON or JSONP response for an updated page. *)
Definition json_response (env : Env) (params : gmap string string)
    (hdrs : PyDict) (page : PyDict) : Result Response :=
  let hdrs' :=
    Dict.set hdrs "Content-Type"
      (VStr ("application/json; charset=" +:+ default "utf-8" (params !! "charset"))) in
  match given (params !! "callback") with
  | Some callback =>
      match json_dumps env (VDict page) with
      | Ok js =>
          Ok {| body := VStr (callback +:+ "(" +:+ js +:+ ");");
                headers := hdrs';
                mimetype := Some "application/javascript" |}
      | Raise e => Raise e
      end
  | None =>
      match json_dumps env (VDict page) with
      | Ok js =>
          Ok {| body := VStr js; headers := hdrs';
                mimetype := Some "application/json" |}
      | Raise e => Raise e
      end
  end.

(** [create_response(page, params, start_time)], with [request.method] and
    the reading of [time.time()] at line 235 as arguments.  The first
    component is the page object after the call. *)
Definition create_response (env : Env) (page : PyDict)
    (params : gmap string string) (method : string)
    (start_time now : Q) : PyDict * Result Response :=
  match base_headers env params method with
  | Raise e => (page, Raise e)
  | Ok hdrs =>
      if raw_passthrough params page then
        let hdrs' :=
          Dict.set
            (Dict.set hdrs "Content-Length"
               (VStr (py_str env (Dict.get_default page "contentLength" (VInt 0)))))
            "Content-Type" (Dict.get_default page "contentType" (VStr "text/plain")) in
        (page, Ok {| body := Dict.get_default page "content" (VBytes []);
                     headers := hdrs'; mimetype := None |})
      else
        match inject_response_time page (now - start_time)%Q with
        | Raise e => (page, Raise e)
        | Ok page' => (page', json_response env params hdrs page')
        end
  end.

(** ** The request pipeline (main.py, lines 163-204) *)

(** The inbound request as Flask presents it: the method and
    [request.args.to_dict()]. *)
Record Request := { method : string; args : gmap string string }.

(** The readings of [time.time()] one run of the pipeline can make. *)
Record Clock := {
  t_start : Q;    (* line 165 *)
  t_lookup : Q;   (* line 50, inside [response_cache.get] *)
  t_encode : Q;   (* line 235, inside [create_response] *)
  t_store : Q }.  (* line 65, inside [response_cache.set] *)

(** The mutable state: the module-level [response_cache] and the trace. *)
Record World := { store : ResponseCache.t; trace : list Event }.

(** What the view function returns. *)
Inductive View :=
| ViewEmpty
| ViewError (payload : PyDict) (code : Z)
| ViewResponse (r : Response).

(** Line 179. *)
Definition cache_key (method url fmt : string) (charset : option string) : string :=
  method +:+ ":" +:+ url +:+ ":" +:+ fmt +:+ ":" +:+ default "" charset.

(** Lines 168-170. *)
Definition request_params (req : Request) (fmt : string) : gmap string string :=
  <["requestMethod" := method req]> (<["format" := fmt]> (args req)).

(** [request.method in ["GET", "HEAD"] and not params.get("disableCache") == "true"] *)
Definition uses_cache (req : Request) (params : gmap string string) : bool :=
  (cacheable_method (method req) && negb (cache_disabled params))%bool.

(** Lines 183-184: the lookup, with the store it leaves behind; a hit is a
    stored page that is true as a condition. *)
Definition lookup (req : Request) (params : gmap string string)
    (key : string) (clk : Clock) (st : ResponseCache.t)
    : option PyDict * ResponseCache.t :=
  if uses_cache req params then
    match ResponseCache.get st key (t_lookup clk) with
    | (Some cached, st') =>
        if truthy (VDict cached) then (Some cached, st') else (None, st')
    | (None, st') => (None, st')
    end
  else (None, st).

(** The cached dict after the encoder updated it in place. *)
Definition write_back (st : ResponseCache.t) (key : string) (page : PyDict)
    : ResponseCache.t :=
  ResponseCache.Make
    (alter (fun i => ResponseCache.Item page (ResponseCache.expiry i)) key
       (ResponseCache.cache st))
    (ResponseCache.max_size st).

(** The smallest integer Python refuses to convert to a float: the
    conversion rounds to nearest, and from [2^1024 - 2^970] on the result
    would not be finite. *)
Definition float_int_limit : Z := 2 ^ 1024 - 2 ^ 970.

(** Whether [float + n] raises [OverflowError] ("int too large to convert
    to float"). *)
Definition exceeds_float_range (n : Z) : bool := float_int_limit <=? Z.abs n.

(** Whether a rational is a finite float (binary64): [x * 2^1074] is an
    integer below [2^2098] whose bits from the 54th on, counted from the
    top, are all zero. *)
Definition is_float (x : Q) : bool :=
  let scaled := Qnum x * 2 ^ 1074 in
  if scaled mod Z.pos (Qden x) =? 0 then
    let N := Z.abs (scaled / Z.pos (Qden x)) in
    let b := Z.log2 N + 1 in
    ((N <? 2 ^ 53) || ((b <=? 2098) && (N mod 2 ^ (b - 53) =? 0)))%bool
  else false.

(** Whether [now + n] of line 65 is free of rounding: the clock reading is
    a float, the integer converts to a float without rounding, and their
    sum is a float again. *)
Definition float_sum_exact (now : Q) (n : Z) : bool :=
  (is_float now && is_float (inject_Z n) && is_float (now + inject_Z n)%Q)%bool.

(** Line 199, the call [response_cache.set(cache_key, page, max_age)], with
    the exception of line 65: when [expiry_seconds] is beyond the float
    range the sum raises after the size test of lines 59-61 has run, so
    the store is left cleared or as it was, without the entry; otherwise
    the call returns and the store is [ResponseCache.set]. *)
Definition response_cache_set (self : ResponseCache.t) (key : string)
    (value : PyDict) (expiry_seconds : Z) (now : Q)
    : Result unit * ResponseCache.t :=
  if exceeds_float_range expiry_seconds then
    (Raise OverflowError,
     ResponseCache.Make
       (if (ResponseCache.max_size self
            <=? Z.of_nat (size (ResponseCache.cache self)))
        then ∅ else ResponseCache.cache self)
       (ResponseCache.max_size self))
  else (Ok tt, ResponseCache.set self key value expiry_seconds now).

(** Lines 187-204: fetch, encode, populate. *)
Definition fetch_and_store (env : Env) (req : Request)
    (params : gmap string string) (key : string) (clk : Clock)
    (st : ResponseCache.t) (tr : list Event) : Result View * World :=
  match get_page env params tr with
  | (Raise e, tr') => (Raise e, {| store := st; trace := tr' |})
  | (Ok page, tr') =>
      match create_response env page params (method req) (t_start clk) (t_encode clk) with
      | (_, Raise e) => (Raise e, {| store := st; trace := tr' |})
      | (page', Ok response) =>
          if uses_cache req params then
            match floor_max_age env params with
            | Ok max_age =>
                match response_cache_set st key page' max_age (t_store clk) with
                | (Ok _, st') =>
                    (Ok (ViewResponse response), {| store := st'; trace := tr' |})
                | (Raise e, st') => (Raise e, {| store := st'; trace := tr' |})
                end
            | Raise e => (Raise e, {| store := st; trace := tr' |})
            end
          else (Ok (ViewResponse response), {| store := st; trace := tr' |})
      end
  end.

(** [process_request(fmt)].  [log_request] only writes to the log. *)
Definition process_request (env : Env) (req : Request) (fmt : string)
    (clk : Clock) (w : World) : Result View * World :=
  let params := request_params req fmt in
  if String.eqb (method req) "OPTIONS" then (Ok ViewEmpty, w)
  else
    match params !! "url" with
    | None =>
        (Ok (ViewError [("error", VStr "No URL provided. Please add a url parameter.")] 400), w)
    | Some url =>
        let key := cache_key (method req) url fmt (params !! "charset") in
        match lookup req params key clk (store w) with
        | (Some cached, st) =>
            let '(cached', r) :=
              create_response env cached params (method req) (t_start clk) (t_encode clk) in
            (result_map ViewResponse r,
             {| store := write_back st key cached'; trace := trace w |})
        | (None, st) => fetch_and_store env req params key clk st (trace w)
        end
    end.

(** [handle_request(format)] (lines 289-294). *)
Definition valid_format (fmt : string) : bool :=
  (String.eqb fmt "get" || String.eqb fmt "raw" || String.eqb fmt "json"
   || String.eqb fmt "info")%bool.

Definition handle_request (env : Env) (req : Request) (fmt : string)
    (clk : Clock) (w : World) : Result View * World :=
  if valid_format fmt then process_request env req fmt clk w
  else (Ok (ViewError [("error", VStr "Invalid format. Use one of: get, raw, json, info")] 400), w).

(** ** A concrete environment, for running the pipeline on examples *)

Module Demo.

(** Decimal literals with an optional minus sign. *)
Fixpoint digits_value (s : string) (acc : Z) : option Z :=
  match s with
  | EmptyString => Some acc
  | String c r =>
      let n := nat_of_ascii c in
      if (Nat.leb 48 n && Nat.leb n 57)%bool
      then digits_value r (10 * acc + Z.of_nat (n - 48))
      else None
  end.

Definition parse_decimal (s : string) : option Z :=
  match s with
  | EmptyString => None
  | String c r =>
      if Ascii.eqb c "-" then
        match r with
        | EmptyString => None
        | _ => Z.opp <$> digits_value r 0
        end
      else digits_value s 0
  end.

Definition quote : string := String (ascii_of_nat 34) EmptyString.

Fixpoint render (v : PyVal) : string :=
  match v with
  | VNone => "null"
  | VStr s => quote +:+ s +:+ quote
  | VInt z => pretty z
  | VFloat x => pretty (Qnum x) +:+ "/" +:+ pretty (Z.pos (Qden x))
  | VBytes _ => "<bytes>"
  | VDict kvs =>
      "{" +:+
      (fix members (l : list (string * PyVal)) : string :=
         match l with
         | [] => ""
         | (k, x) :: r =>
             quote +:+ k +:+ quote +:+ ": " +:+ render x +:+
             match r with [] => "" | _ => ", " +:+ members r end
         end) kvs
      +:+ "}"
  end.

(** The decimal literal of [10 ^ 309], an integer beyond the float range. *)
Definition oversized : string := String "1" (String.concat "" (replicate 309 "0")).

Definition ok_response (hs : list (string * string)) (text : string) : HttpOutcome :=
  HttpOk {| status_code := 200;
            resp_headers := list_to_map hs;
            content := String.list_byte_of_string text |}.

(** The hosts: one that answers, one whose [Content-Length] is not a
    number, one without headers, one whose name the transport cannot
    parse; every other one cannot be reached. *)
Definition network (_ : list Event) (_ : string) (url : option string) : HttpOutcome :=
  match url with
  | Some "http://site/" =>
      ok_response [("content-type", "text/html"); ("content-length", "5")] "hello"
  | Some "http://odd/" =>
      ok_response [("content-type", "text/html"); ("content-length", "abc")] "hello"
  | Some "http://bare/" => ok_response [] "hello"
  | Some "http://a..b/" => HttpRaises (OtherError "LocationParseError")
  | _ => RequestException "connection refused"
  end.

(** A codec registry that knows three names. *)
Definition codecs (charset : string) (b : bytes) : DecodeOutcome :=
  let cs := lower charset in
  if (String.eqb cs "utf-8" || String.eqb cs "latin-1" || String.eqb cs "ascii")%bool
  then Decoded (String.string_of_list_byte b)
  else DecodeRaises LookupError.

Definition env : Env := {|
  session_request := network;
  bytes_decode := codecs;
  decode_utf8_replace := String.string_of_list_byte;
  str_encode_utf8 := fun s => Some (String.list_byte_of_string s);
  int_of_str := parse_decimal;
  json_text := render;
  repr_text := fun _ => "<object>" |}.

Definition clock (start lookup encode store_ : Z) : Clock := {|
  t_start := inject_Z start; t_lookup := inject_Z lookup;
  t_encode := inject_Z encode; t_store := inject_Z store_ |}.

Definition fresh_world : World :=
  {| store := ResponseCache.init ResponseCache.default_max_size; trace := [] |}.

Definition request (m : string) (qs : list (string * string)) : Request :=
  {| method := m; args := list_to_map qs |}.

(** The response of a run, when it has one. *)
Definition response_of (r : Result View) : Response :=
  match r with
  | Ok (ViewResponse x) => x
  | _ => {| body := VNone; headers := []; mimetype := None |}
  end.

End Demo.

(** ** Sequences of store operations, and the CORS hook *)

(** A call of [get] or of [set] on the store, as data. *)
Inductive cache_op :=
| OpGet (key : string) (now : Q)
| OpSet (i : ResponseCache.insertion).

Definition apply_op (self : ResponseCache.t) (o : cache_op) : ResponseCache.t :=
  match o with
  | OpGet key now => (ResponseCache.get self key now).2
  | OpSet i => ResponseCache.apply_insertion self i
  end.

Definition run_ops (self : ResponseCache.t) (l : list cache_op) : ResponseCache.t :=
  fold_left apply_op l self.

(** The largest entry count [set] can leave behind: [max_size], and one
    entry when [max_size] is below one. *)
Definition size_bound (self : ResponseCache.t) : nat :=
  Z.to_nat (Z.max 1 (ResponseCache.max_size self)).

Definition is_request (e : Event) : bool :=
  match e with EvRequest _ _ => true | EvDecode _ => false end.

(** The method of the outbound call [get_page] makes: [session.head] in
    the info branch, [request_method] in the other two. *)
Definition outbound_method (params : gmap string string) : string :=
  match route params with
  | RouteInfo => "HEAD"
  | _ => default "GET" (params !! "requestMethod")
  end.

(** [add_cors_headers(response)] (lines 297-307); [origin] is the [Origin]
    header of the request, when it has one. *)
Definition add_cors_headers (origin : option string) (response : Response) : Response :=
  let h1 := Dict.set (headers response)
              "Access-Control-Allow-Origin" (VStr (default "*" origin)) in
  let h2 := Dict.set h1 "Access-Control-Allow-Credentials" (VStr "true") in
  let h3 := Dict.set h2 "Access-Control-Allow-Headers"
              (VStr "Origin, X-Requested-With, Content-Type, Content-Encoding, Accept") in
  let h4 := Dict.set h3 "Access-Control-Allow-Methods"
              (VStr "OPTIONS, GET, POST, PATCH, PUT, DELETE") in
  {| body := body response; headers := h4; mimetype := mimetype response |}.

(** * Facts *)

(** ** Dicts *)

Section DictFacts.
Implicit Types (d : PyDict) (k : string) (v : PyVal).

Lemma dict_get_set_eq d k v : Dict.get (Dict.set d k v) k = Some v.
Proof.
  induction d as [|[k' v'] r IH]; simpl.
  - by rewrite String.eqb_refl.
  - destruct (String.eqb k' k) eqn:E; simpl.
    + by rewrite String.eqb_refl.
    + by rewrite E.
Qed.

Lemma dict_get_set_ne d k k' v :
  k <> k' -> Dict.get (Dict.set d k v) k' = Dict.get d k'.
Proof.
  intros Hne. induction d as [|[k0 v0] r IH]; simpl.
  - by destruct (String.eqb_spec k k').
  - destruct (String.eqb_spec k0 k) as [->|Hk]; simpl.
    + by destruct (String.eqb_spec k k').
    + destruct (String.eqb_spec k0 k'); [done|apply IH].
Qed.

Lemma dict_set_set d k v1 v2 :
  Dict.set (Dict.set d k v1) k v2 = Dict.set d k v2.
Proof.
  induction d as [|[k' v'] r IH]; simpl.
  - by rewrite String.eqb_refl.
  - destruct (String.eqb k' k) eqn:E; simpl.
    + by rewrite String.eqb_refl.
    + by rewrite E, IH.
Qed.

Lemma dict_set_truthy d k v : truthy (VDict (Dict.set d k v)) = true.
Proof.
  destruct d as [|[k' v'] r]; simpl; [done|].
  by destruct (String.eqb k' k).
Qed.

Lemma dict_get_default_set_ne d k k' v dflt :
  k <> k' ->
  Dict.get_default (Dict.set d k v) k' dflt = Dict.get_default d k' dflt.
Proof. intros H. unfold Dict.get_default. by rewrite dict_get_set_ne. Qed.

End DictFacts.

(** ** The cache store *)

Section StoreFacts.
Import ResponseCache.
Implicit Types (self : ResponseCache.t) (key : string) (now : Q).

Lemma fresh_iff i now : fresh i now = true <-> (now < expiry i)%Q.
Proof.
  unfold fresh. rewrite negb_true_iff. split.
  - intros H. apply Qnot_le_lt. intros Hle.
    apply Qle_bool_iff in Hle. congruence.
  - intros H. destruct (Qle_bool _ _) eqn:E; [|done].
    apply Qle_bool_iff in E. exfalso. by apply (Qlt_not_le _ _ H).
Qed.

Lemma fresh_false_iff i now : fresh i now = false <-> ~ (now < expiry i)%Q.
Proof.
  rewrite <- fresh_iff. destruct (fresh i now); split; congruence.
Qed.

(** A hit, or a lookup of an absent key, leaves the store as it was. *)
Lemma get_frame self key now :
  (cache self !! key = None \/
   exists i, cache self !! key = Some i /\ (now < expiry i)%Q) ->
  (get self key now).2 = self.
Proof.
  unfold get. intros [-> | (i & -> & Hlt)]; [done|].
  apply fresh_iff in Hlt. by rewrite Hlt.
Qed.

Lemma get_Some self key now v :
  (get self key now).1 = Some v ->
  exists i, cache self !! key = Some i /\ data i = v /\ (now < expiry i)%Q
            /\ (get self key now).2 = self.
Proof.
  unfold get. destruct (cache self !! key) as [i|] eqn:E; [|done].
  destruct (fresh i now) eqn:F; [|done].
  simpl. intros [= <-]. exists i. by rewrite <- fresh_iff.
Qed.

Lemma set_all_snoc self l i :
  set_all self (l ++ [i]) = apply_insertion (set_all self l) i.
Proof. unfold set_all. by rewrite fold_left_app. Qed.

Lemma set_all_max_size self l : max_size (set_all self l) = max_size self.
Proof.
  induction l as [|i l IH] using rev_ind; [done|].
  by rewrite set_all_snoc.
Qed.

(** Below the bound, distinct keys accumulate: nothing is cleared. *)
Lemma set_all_below_bound (M : Z) (l : list insertion) :
  NoDup (ins_key <$> l) ->
  Z.of_nat (length l) <= M ->
  size (cache (set_all (init M) l)) = length l /\
  (forall k, is_Some (cache (set_all (init M) l) !! k) -> k ∈ ins_key <$> l).
Proof.
  induction l as [|i l IH] using rev_ind; intros Hnd Hlen.
  - split; [apply map_size_empty|].
    intros k [x Hx]. simpl in Hx. by rewrite lookup_empty in Hx.
  - rewrite fmap_app in Hnd. apply NoDup_app in Hnd as (Hnd & Hfresh & _).
    rewrite length_app in Hlen. simpl in Hlen.
    destruct IH as [IHsz IHdom]; [done|lia|].
    rewrite set_all_snoc. unfold apply_insertion, set.
    rewrite set_all_max_size. simpl.
    rewrite IHsz.
    destruct (Z.leb_spec M (Z.of_nat (length l))) as [?|_]; [lia|].
    assert (Hnone : cache (set_all (init M) l) !! ins_key i = None).
    { destruct (cache (set_all (init M) l) !! ins_key i) eqn:E; [|done].
      exfalso. apply (Hfresh (ins_key i)).
      - apply IHdom. by rewrite E.
      - simpl. set_solver. }
    split.
    + rewrite map_size_insert_None by done. rewrite length_app. simpl. lia.
    + intros k Hk. rewrite fmap_app. simpl.
      apply elem_of_app.
      destruct (decide (ins_key i = k)) as [<-|Hne]; [right; by left|].
      rewrite lookup_insert_ne in Hk by done. left. by apply IHdom.
Qed.

End StoreFacts.

(** ** Strings and the cache key *)

Section KeyFacts.
Implicit Types (a b c x y : string).

Lemma append_nil b : "" +:+ b = b.
Proof. reflexivity. Qed.

Lemma append_cons ch a b : String ch a +:+ b = String ch (a +:+ b).
Proof. reflexivity. Qed.

Lemma append_assoc a b c : (a +:+ b) +:+ c = a +:+ (b +:+ c).
Proof.
  induction a as [|ch a IH]; [done|].
  by rewrite !append_cons, IH.
Qed.

Lemma has_colon_append a b :
  has_colon (a +:+ b) = (has_colon a || has_colon b)%bool.
Proof.
  induction a as [|ch a IH]; [done|].
  rewrite append_cons. simpl. by destruct (Ascii.eqb ch ":").
Qed.

Lemma has_colon_sep a b : has_colon (a +:+ ":" +:+ b) = true.
Proof.
  rewrite has_colon_append, append_cons. simpl. apply orb_true_r.
Qed.

(** The text before the first separator is determined by the whole. *)
Lemma split_at_first_colon a a' x x' :
  has_colon a = false -> has_colon a' = false ->
  a +:+ ":" +:+ x = a' +:+ ":" +:+ x' -> a = a' /\ x = x'.
Proof.
  revert a'. induction a as [|ch a IH]; intros [|ch' a'] Ha Ha' Heq;
    rewrite ?append_cons, ?append_nil in Heq; simpl in Ha, Ha'.
  - by injection Heq.
  - injection Heq as <- _. by rewrite Ascii.eqb_refl in Ha'.
  - injection Heq as -> _. by rewrite Ascii.eqb_refl in Ha.
  - injection Heq as -> Heq.
    destruct (Ascii.eqb ch' ":"); [done|].
    destruct (IH a' Ha Ha' Heq) as [-> ->]. done.
Qed.

(** The text after the last separator is determined by the whole. *)
Lemma split_at_last_colon x x' c c' :
  has_colon c = false -> has_colon c' = false ->
  x +:+ ":" +:+ c = x' +:+ ":" +:+ c' -> x = x' /\ c = c'.
Proof.
  intros Hc Hc'. revert x'.
  induction x as [|ch x IH]; intros [|ch' x'] Heq.
  - by injection Heq.
  - injection Heq as _ Heq. rewrite append_nil in Heq. subst c.
    by rewrite has_colon_sep in Hc.
  - injection Heq as _ Heq. rewrite append_nil in Heq. subst c'.
    by rewrite has_colon_sep in Hc'.
  - injection Heq as -> Heq. destruct (IH x' Heq) as [-> ->]. done.
Qed.

End KeyFacts.

(** C1 (as stated, refuted): a request without [charset] and a request
    whose [charset] is the empty string get the same key, although the
    fourth field differs. *)
Lemma cache_key_absent_charset_collides :
  cache_key "GET" "http://site/" "json" None
  = cache_key "GET" "http://site/" "json" (Some "")
  /\ (None : option string) <> Some "".
Proof. split; [reflexivity | discriminate]. Qed.

(** C1 (amended): the key is a function of the method, the url, the format
    and the charset with an absent charset read as the empty string; when
    the method, the format and that charset contain no [":"], two keys are
    equal exactly when these four values are equal. *)
Theorem cache_key_injective_up_to_default
    (m u f m' u' f' : string) (c c' : option string) :
  has_colon m = false -> has_colon m' = false ->
  has_colon f = false -> has_colon f' = false ->
  has_colon (default "" c) = false -> has_colon (default "" c') = false ->
  cache_key m u f c = cache_key m' u' f' c'
  <-> m = m' /\ u = u' /\ f = f' /\ default "" c = default "" c'.
Proof.
  intros Hm Hm' Hf Hf' Hc Hc'. unfold cache_key. split.
  - intros Heq.
    apply split_at_first_colon in Heq as [-> Heq]; [|done..].
    assert (Hregroup : forall x y z : string,
              x +:+ ":" +:+ y +:+ ":" +:+ z = (x +:+ ":" +:+ y) +:+ ":" +:+ z)
      by (intros; by rewrite !append_assoc).
    rewrite (Hregroup u), (Hregroup u') in Heq.
    apply split_at_last_colon in Heq as [Heq ->]; [|done..].
    apply split_at_last_colon in Heq as [-> ->]; done.
  - by intros (-> & -> & -> & ->).
Qed.

Lemma cache_key_injective_up_to_default_witness :
  cache_key "GET" "http://a:80/" "raw" None
  = cache_key "GET" "http://a:80/" "raw" (Some "")
  <-> "GET" = "GET" /\ "http://a:80/" = "http://a:80/" /\ "raw" = "raw"
      /\ default "" (None : option string) = default "" (Some "").
Proof.
  apply (cache_key_injective_up_to_default
           "GET" "http://a:80/" "raw" "GET" "http://a:80/" "raw" None (Some ""));
    reflexivity.
Defined.

(** The fetcher does not tell an absent charset from an empty one, so the
    two requests that share a key fetch the same page. *)
Lemma get_page_charset_absent_or_empty env params tr :
  get_page env (<["charset" := ""]> params) tr
  = get_page env (delete "charset" params) tr.
Proof.
  unfold get_page, route.
  rewrite !lookup_insert_ne, !lookup_delete_ne by done.
  rewrite lookup_insert_eq, lookup_delete_eq.
  destruct (_ || _)%bool; [done|].
  destruct (String.eqb _ "raw"); [|done].
  unfold get_raw_page. simpl. by destruct (session_request _ _ _ _).
Qed.

(** A [":"] inside the charset can move the boundary between the fields. *)
Remark cache_key_separator_in_charset :
  cache_key "GET" "http://a/" "raw" (Some "raw:x")
  = cache_key "GET" "http://a/:raw" "raw" (Some "x").
Proof. reflexivity. Qed.

(** ** Claims about the store *)

(** C3: when the entry count has reached [max_size], [set] leaves a store
    that holds the new entry only; so [max_size + 1] distinct keys put into
    a fresh store leave exactly one entry, the last one. *)
Theorem set_clears_full_store :
  (forall (self : ResponseCache.t) key value ttl now,
     ResponseCache.max_size self
       <= Z.of_nat (size (ResponseCache.cache self)) ->
     ResponseCache.cache (ResponseCache.set self key value ttl now)
     = {[ key := ResponseCache.Item value (now + inject_Z ttl)%Q ]})
  /\
  (forall (l : list ResponseCache.insertion) (last : ResponseCache.insertion),
     NoDup (ResponseCache.ins_key <$> (l ++ [last])) ->
     let full :=
       ResponseCache.set_all (ResponseCache.init (Z.of_nat (length l))) l in
     let after := ResponseCache.apply_insertion full last in
     size (ResponseCache.cache full) = length l
     /\ ResponseCache.set_all (ResponseCache.init (Z.of_nat (length l))) (l ++ [last])
        = after
     /\ ResponseCache.cache after
        = {[ ResponseCache.ins_key last := ResponseCache.entry_of last ]}
     /\ size (ResponseCache.cache after) = 1%nat).
Proof.
  assert (Hfull : forall (self : ResponseCache.t) key value ttl now,
     ResponseCache.max_size self
       <= Z.of_nat (size (ResponseCache.cache self)) ->
     ResponseCache.cache (ResponseCache.set self key value ttl now)
     = {[ key := ResponseCache.Item value (now + inject_Z ttl)%Q ]}).
  { intros self key value ttl now Hle. unfold ResponseCache.set. simpl.
    destruct (Z.leb_spec (ResponseCache.max_size self)
                (Z.of_nat (size (ResponseCache.cache self)))); [|lia].
    apply insert_empty. }
  split; [exact Hfull|].
  intros l last Hnd full after.
  rewrite fmap_app in Hnd. apply NoDup_app in Hnd as (Hnd & _ & _).
  destruct (set_all_below_bound (Z.of_nat (length l)) l Hnd) as [Hsz _]; [lia|].
  assert (Hafter : ResponseCache.cache after
     = {[ ResponseCache.ins_key last := ResponseCache.entry_of last ]}).
  { unfold after, ResponseCache.apply_insertion, ResponseCache.entry_of.
    apply Hfull. unfold full. rewrite set_all_max_size. simpl.
    rewrite Hsz. lia. }
  split; [exact Hsz|]. split; [apply set_all_snoc|].
  split; [exact Hafter|]. rewrite Hafter. apply map_size_singleton.
Qed.

Lemma set_clears_full_store_witness :
  let i1 := ResponseCache.Insertion "a" [] 300 0%Q in
  let i2 := ResponseCache.Insertion "b" [] 300 1%Q in
  let i3 := ResponseCache.Insertion "c" [("error", VStr "x")] 600 2%Q in
  ResponseCache.cache
    (ResponseCache.set (ResponseCache.init 0) "k" [] 300 0%Q)
  = {[ "k" := ResponseCache.Item [] (0 + inject_Z 300)%Q ]}
  /\ ResponseCache.cache
       (ResponseCache.set_all (ResponseCache.init 2) [i1; i2; i3])
     = {[ "c" := ResponseCache.entry_of i3 ]}.
Proof.
  intros i1 i2 i3. split.
  - apply (proj1 set_clears_full_store (ResponseCache.init 0)). vm_compute.
    discriminate.
  - destruct (proj2 set_clears_full_store [i1; i2] i3) as (_ & Hrun & Hone & _).
    + by apply (bool_decide_unpack _); vm_compute.
    + exact (eq_trans (f_equal ResponseCache.cache Hrun) Hone).
Defined.

(** C9: [get] returns a value only for an entry whose expiry lies strictly
    after the current time; an entry whose expiry has passed is deleted and
    the answer is [None], so no expired entry remains under the key or is
    returned. *)
Theorem get_hides_expired_entries (self : ResponseCache.t) (key : string) (now : Q) :
  (forall v, (ResponseCache.get self key now).1 = Some v ->
     exists i, ResponseCache.cache self !! key = Some i
               /\ ResponseCache.data i = v
               /\ (now < ResponseCache.expiry i)%Q)
  /\ (forall i, ResponseCache.cache self !! key = Some i ->
        (now < ResponseCache.expiry i)%Q ->
        ResponseCache.get self key now = (Some (ResponseCache.data i), self))
  /\ (forall i, ResponseCache.cache self !! key = Some i ->
        ~ (now < ResponseCache.expiry i)%Q ->
        ResponseCache.get self key now
        = (None, ResponseCache.Make (delete key (ResponseCache.cache self))
                   (ResponseCache.max_size self)))
  /\ (forall i,
        ResponseCache.cache (ResponseCache.get self key now).2 !! key = Some i ->
        (now < ResponseCache.expiry i)%Q).
Proof.
  repeat split.
  - intros v Hv. destruct (get_Some self key now v Hv) as (i & ? & ? & ? & _).
    by exists i.
  - intros i Hi Hlt. unfold ResponseCache.get. rewrite Hi.
    apply fresh_iff in Hlt. by rewrite Hlt.
  - intros i Hi Hge. unfold ResponseCache.get. rewrite Hi.
    apply fresh_false_iff in Hge. by rewrite Hge.
  - intros i. unfold ResponseCache.get.
    destruct (ResponseCache.cache self !! key) as [j|] eqn:E.
    + destruct (ResponseCache.fresh j now) eqn:F; simpl.
      * rewrite E. intros [= <-]. by apply fresh_iff.
      * by rewrite lookup_delete_eq.
    + simpl. by rewrite E.
Qed.

Lemma get_hides_expired_entries_witness :
  let self :=
    ResponseCache.Make {[ "k" := ResponseCache.Item [("error", VStr "x")] 10%Q ]} 1000 in
  ResponseCache.get self "k" 9%Q = (Some [("error", VStr "x")], self)
  /\ ResponseCache.get self "k" 10%Q
     = (None, ResponseCache.Make (delete "k" (ResponseCache.cache self)) 1000).
Proof.
  intros self.
  destruct (get_hides_expired_entries self "k" 9%Q) as (_ & Hhit & _).
  destruct (get_hides_expired_entries self "k" 10%Q) as (_ & _ & Hgone & _).
  split.
  - apply (Hhit (ResponseCache.Item [("error", VStr "x")] 10%Q)); reflexivity.
  - apply (Hgone (ResponseCache.Item [("error", VStr "x")] 10%Q));
      [reflexivity | vm_compute; discriminate].
Defined.

(** ** The encoder *)

Section EncoderFacts.
Variable env : Env.
Implicit Types (page : PyDict) (params : gmap string string) (m : string).

Lemma json_serialisable_set (d : PyDict) k v1 v2 :
  json_serialisable v1 = json_serialisable v2 ->
  json_serialisable (VDict (Dict.set d k v1))
  = json_serialisable (VDict (Dict.set d k v2)).
Proof.
  intros Hv. induction d as [|[k' v'] r IH]; simpl in *.
  - by rewrite Hv.
  - destruct (String.eqb k' k); simpl; [by rewrite Hv|by rewrite IH].
Qed.

Lemma inject_response_time_again page page1 rt1 rt2 :
  inject_response_time page rt1 = Ok page1 ->
  inject_response_time page1 rt2 = inject_response_time page rt2.
Proof.
  unfold inject_response_time.
  destruct (Dict.get page "status") as [[| | | | |st]|] eqn:E; try done;
    intros [= <-].
  - rewrite dict_get_set_eq. by rewrite !dict_set_set.
  - rewrite dict_get_set_ne, E by done. by rewrite dict_set_set.
Qed.

Lemma inject_response_time_ok page rt1 rt2 :
  is_ok (inject_response_time page rt1) = is_ok (inject_response_time page rt2).
Proof.
  unfold inject_response_time.
  by destruct (Dict.get page "status") as [[| | | | |st]|].
Qed.

Lemma inject_response_time_serialisable page page1 page2 rt1 rt2 :
  inject_response_time page rt1 = Ok page1 ->
  inject_response_time page rt2 = Ok page2 ->
  json_serialisable (VDict page1) = json_serialisable (VDict page2).
Proof.
  unfold inject_response_time.
  destruct (Dict.get page "status") as [[| | | | |st]|]; try done;
    intros [= <-] [= <-].
  - apply json_serialisable_set. by apply json_serialisable_set.
  - by apply json_serialisable_set.
Qed.

Lemma inject_response_time_error page page1 rt :
  inject_response_time page rt = Ok page1 ->
  Dict.get_default page1 "error" VNone = Dict.get_default page "error" VNone.
Proof.
  unfold inject_response_time.
  destruct (Dict.get page "status") as [[| | | | |st]|]; try done;
    intros [= <-]; by rewrite dict_get_default_set_ne.
Qed.

Lemma inject_response_time_truthy page page1 rt :
  inject_response_time page rt = Ok page1 -> truthy (VDict page1) = true.
Proof.
  unfold inject_response_time.
  destruct (Dict.get page "status") as [[| | | | |st]|]; try done;
    intros [= <-]; apply dict_set_truthy.
Qed.

Lemma raw_passthrough_inject params page page1 rt :
  inject_response_time page rt = Ok page1 ->
  raw_passthrough params page1 = raw_passthrough params page.
Proof.
  intros H. unfold raw_passthrough.
  by rewrite (inject_response_time_error _ _ _ H).
Qed.

Lemma json_response_ok params hdrs page1 page2 :
  json_serialisable (VDict page1) = json_serialisable (VDict page2) ->
  is_ok (json_response env params hdrs page1)
  = is_ok (json_response env params hdrs page2).
Proof.
  intros H. unfold json_response, json_dumps. rewrite H.
  destruct (given (params !! "callback"));
    by destruct (json_serialisable (VDict page2)).
Qed.

(** The encoder sees the two clock readings through their difference. *)
Lemma create_response_elapsed page params m s1 n1 s2 n2 :
  (n1 - s1)%Q = (n2 - s2)%Q ->
  create_response env page params m s1 n1
  = create_response env page params m s2 n2.
Proof. intros H. unfold create_response. by rewrite H. Qed.

(** Whether the encoder raises does not depend on the clock. *)
Lemma create_response_ok page params m s1 n1 s2 n2 :
  is_ok (create_response env page params m s1 n1).2
  = is_ok (create_response env page params m s2 n2).2.
Proof.
  unfold create_response.
  destruct (base_headers env params m) as [hdrs|e]; [|done].
  destruct (raw_passthrough params page); [done|].
  pose proof (inject_response_time_ok page (n1 - s1)%Q (n2 - s2)%Q) as Hok.
  destruct (inject_response_time page (n1 - s1)%Q) as [p1|] eqn:E1,
           (inject_response_time page (n2 - s2)%Q) as [p2|] eqn:E2;
    try done.
  simpl. apply json_response_ok.
  by apply (inject_response_time_serialisable page _ _ _ _ E1 E2).
Qed.

(** Encoding the page the encoder left behind gives what encoding the
    original page gives: the time field is overwritten in place. *)
Lemma create_response_again page params m s1 n1 s2 n2 :
  create_response env (create_response env page params m s1 n1).1 params m s2 n2
  = create_response env page params m s2 n2.
Proof.
  unfold create_response at 2.
  destruct (base_headers env params m) as [hdrs|e] eqn:B; [|done].
  destruct (raw_passthrough params page) eqn:R; [done|].
  destruct (inject_response_time page (n1 - s1)%Q) as [p1|] eqn:E1; [|done].
  simpl. unfold create_response. rewrite B.
  rewrite (raw_passthrough_inject _ _ _ _ E1), R.
  rewrite (inject_response_time_again _ _ _ _ E1).
  pose proof (inject_response_time_ok page (n1 - s1)%Q (n2 - s2)%Q) as Hok.
  rewrite E1 in Hok. by destruct (inject_response_time page (n2 - s2)%Q).
Qed.

Lemma create_response_truthy page params m s n :
  truthy (VDict page) = true ->
  truthy (VDict (create_response env page params m s n).1) = true.
Proof.
  intros Hp. unfold create_response.
  destruct (base_headers env params m) as [hdrs|e]; [|done].
  destruct (raw_passthrough params page); [done|].
  destruct (inject_response_time page (n - s)%Q) as [p1|] eqn:E1; [|done].
  simpl. by apply (inject_response_time_truthy _ _ _ E1).
Qed.

Lemma base_headers_cache_control params m hdrs :
  cacheable_method m = true ->
  base_headers env params m = Ok hdrs ->
  exists n,
    (if cache_disabled params then Ok 0 else floor_max_age env params) = Ok n
    /\ Dict.get hdrs "Cache-Control"
       = Some (VStr ("public, max-age=" +:+ pretty n +:+ ", stale-if-error=600")).
Proof.
  intros Hm. unfold base_headers. rewrite Hm.
  destruct (if cache_disabled params then Ok 0 else floor_max_age env params)
    as [n|e]; [|done].
  intros [= <-]. exists n. split; [done|]. reflexivity.
Qed.


End EncoderFacts.

(** ** The fetcher *)

Section FetcherFacts.
Variable env : Env.
Implicit Types (params : gmap string string) (tr : list Event).

Lemma filter_decode_request tr m url :
  filter is_decode (tr ++ [EvRequest m url]) = filter is_decode tr.
Proof. rewrite filter_app. simpl. apply app_nil_r. Qed.

(** The header probe calls no decoder. *)
Lemma get_page_info_no_decode url tr :
  filter is_decode (get_page_info env url tr).2 = filter is_decode tr.
Proof.
  unfold get_page_info.
  destruct (session_request env tr "HEAD" url) as [r|msg|e]; simpl.
  - destruct (resp_headers r !! "content-length") as [s|]; simpl;
      [destruct (py_int env s)|]; simpl; apply filter_decode_request.
  - apply filter_decode_request.
  - apply filter_decode_request.
Qed.

(** What [get_page_info] puts into [content_length]. *)
Lemma get_page_info_content_length url tr r :
  session_request env tr "HEAD" url = HttpOk r ->
  match resp_headers r !! "content-length" with
  | None =>
      exists page, (get_page_info env url tr).1 = Ok page
                   /\ Dict.get page "content_length" = Some (VInt (-1))
  | Some s =>
      match int_of_str env s with
      | Some n =>
          exists page, (get_page_info env url tr).1 = Ok page
                       /\ Dict.get page "content_length" = Some (VInt n)
      | None => (get_page_info env url tr).1 = Raise ValueError
      end
  end.
Proof.
  intros Hr. unfold get_page_info, py_int. rewrite Hr.
  destruct (resp_headers r !! "content-length") as [s|].
  - destruct (int_of_str env s) as [n|]; [|done].
    eexists. split; [done|]. reflexivity.
  - eexists. split; [done|]. reflexivity.
Qed.

Lemma route_info params :
  params !! "format" = Some "info" \/ params !! "requestMethod" = Some "HEAD" ->
  route params = RouteInfo.
Proof.
  unfold route. intros [-> | ->]; simpl.
  - reflexivity.
  - by rewrite orb_true_r.
Qed.

(** Every page a fetcher returns is a non-empty dict. *)
Lemma get_page_truthy params tr page tr' :
  get_page env params tr = (Ok page, tr') -> truthy (VDict page) = true.
Proof.
  unfold get_page, get_page_info, get_raw_page, get_page_contents, raw_page,
    contents_page, contents_error.
  destruct (route params);
    repeat (match goal with
            | |- context [match ?x with _ => _ end] => destruct x
            end; simpl; try done);
    by intros [= <- _].
Qed.

(** A transport failure becomes an error-shaped page, in every branch. *)
Lemma get_page_transport_failure params tr msg :
  (forall m, session_request env tr m (params !! "url") = RequestException msg) ->
  exists tr',
    get_page env params tr = (Ok [("error", VStr msg)], tr')
    \/ get_page env params tr = (Ok (contents_error msg), tr').
Proof.
  intros Hdown.
  unfold get_page, get_page_info, get_raw_page, get_page_contents.
  destruct (route params); rewrite Hdown; eauto.
Qed.

(** The content branch returns a dict with a [contents] field: a decoded
    string, or [None] next to a [status] that carries the error. *)
Lemma get_page_contents_shape params tr page tr' :
  route params = RouteContents ->
  get_page env params tr = (Ok page, tr') ->
  (exists text, Dict.get page "contents" = Some (VStr text))
  \/ (Dict.get page "contents" = Some VNone
      /\ exists msg, Dict.get page "status" = Some (VDict [("error", VStr msg)])).
Proof.
  intros Hroute. unfold get_page. rewrite Hroute. unfold get_page_contents.
  destruct (session_request env tr _ _) as [r|msg|e]; [| |done].
  - destruct (given (params !! "charset")) as [cs|].
    + destruct (bytes_decode env cs (content r)); try done;
        intros [= <- _]; left; eexists; reflexivity.
    + intros [= <- _]. left. eexists. reflexivity.
  - intros [= <- _]. right. split; [reflexivity|]. eexists. reflexivity.
Qed.

Lemma route_contents_not_raw params :
  route params = RouteContents -> params !! "format" <> Some "raw".
Proof.
  unfold route. intros H Hraw. rewrite Hraw in H. simpl in H.
  destruct (String.eqb (default "GET" (params !! "requestMethod")) "HEAD");
    discriminate.
Qed.

End FetcherFacts.

(** ** The pipeline *)

Section PipelineFacts.
Variable env : Env.
Implicit Types (req : Request) (params : gmap string string)
  (st : ResponseCache.t) (w : World) (clk : Clock).

Lemma cacheable_not_options m :
  cacheable_method m = true -> String.eqb m "OPTIONS" = false.
Proof.
  unfold cacheable_method. intros H. apply orb_true_iff in H.
  destruct H as [H|H]; apply String.eqb_eq in H; by subst.
Qed.

(** A hit is a fresh, non-empty entry, and the lookup leaves the store
    as it was. *)
Lemma lookup_Some req params key clk st cached st' :
  lookup req params key clk st = (Some cached, st') ->
  st' = st /\ uses_cache req params = true /\ truthy (VDict cached) = true
  /\ exists i, ResponseCache.cache st !! key = Some i
               /\ ResponseCache.data i = cached
               /\ (t_lookup clk < ResponseCache.expiry i)%Q.
Proof.
  unfold lookup. destruct (uses_cache req params); [|done].
  destruct (ResponseCache.get st key (t_lookup clk)) as [[p|] st1] eqn:G;
    [|done].
  destruct (truthy (VDict p)) eqn:T; [|done]. intros [= -> ->].
  destruct (get_Some st key (t_lookup clk) cached) as (i & ? & ? & ? & Hst).
  { by rewrite G. }
  rewrite G in Hst. simpl in Hst. eauto 10.
Qed.

Lemma lookup_hit req params key clk st i :
  uses_cache req params = true ->
  ResponseCache.cache st !! key = Some i ->
  (t_lookup clk < ResponseCache.expiry i)%Q ->
  truthy (VDict (ResponseCache.data i)) = true ->
  lookup req params key clk st = (Some (ResponseCache.data i), st).
Proof.
  intros Hu Hi Hlt Ht. unfold lookup, ResponseCache.get.
  apply fresh_iff in Hlt. by rewrite Hu, Hi, Hlt, Ht.
Qed.

(** Writing the mutated page back touches no expiry. *)
Lemma write_back_expiry st key page :
  ResponseCache.expiry <$> ResponseCache.cache (write_back st key page)
  = ResponseCache.expiry <$> ResponseCache.cache st.
Proof.
  apply map_eq. intros k. unfold write_back. simpl.
  rewrite !lookup_fmap, lookup_alter. case_decide; [subst|done].
  by destruct (ResponseCache.cache st !! k).
Qed.

Lemma write_back_lookup st key page i :
  ResponseCache.cache st !! key = Some i ->
  ResponseCache.cache (write_back st key page) !! key
  = Some (ResponseCache.Item page (ResponseCache.expiry i)).
Proof.
  intros Hi. unfold write_back. simpl.
  rewrite lookup_alter. case_decide; [|done]. by rewrite Hi.
Qed.

End PipelineFacts.

(** ** Claims about the pipeline *)

(** C10: a lookup that finds no entry, or an entry that has not expired,
    leaves the store unchanged; and a request answered from the cache
    returns without a call of [set] and without an outbound call: the store
    it leaves differs from the old one at most in the page object of the
    entry it hit, and every expiry is what it was. *)
Theorem cache_hit_keeps_expiry :
  (forall (self : ResponseCache.t) (key : string) (now : Q),
     (ResponseCache.cache self !! key = None \/
      exists i, ResponseCache.cache self !! key = Some i
                /\ (now < ResponseCache.expiry i)%Q) ->
     (ResponseCache.get self key now).2 = self)
  /\
  (forall (env : Env) (req : Request) (fmt : string) (clk : Clock) (w : World)
          (url : string) (cached : PyDict) (st : ResponseCache.t),
     let params := request_params req fmt in
     let key := cache_key (method req) url fmt (params !! "charset") in
     params !! "url" = Some url ->
     lookup req params key clk (store w) = (Some cached, st) ->
     let w' := (process_request env req fmt clk w).2 in
     (exists cached', store w' = write_back (store w) key cached')
     /\ trace w' = trace w
     /\ ResponseCache.expiry <$> ResponseCache.cache (store w')
        = ResponseCache.expiry <$> ResponseCache.cache (store w)).
Proof.
  split; [exact get_frame|].
  intros env req fmt clk w url cached st params key Hurl Hhit w'.
  destruct (lookup_Some _ _ _ _ _ _ _ Hhit) as (-> & Huses & _ & _).
  assert (Hm : String.eqb (method req) "OPTIONS" = false).
  { apply cacheable_not_options. unfold uses_cache in Huses.
    by apply andb_true_iff in Huses as [? _]. }
  assert (Hw' : exists cached',
             w' = {| store := write_back (store w) key cached'; trace := trace w |}).
  { unfold w', process_request. rewrite Hm. fold params. rewrite Hurl.
    fold key. rewrite Hhit.
    destruct (create_response env cached params (method req)
                (t_start clk) (t_encode clk)) as [cached' r].
    by exists cached'. }
  destruct Hw' as [cached' ->]. simpl.
  split; [by exists cached'|]. split; [done|]. apply write_back_expiry.
Qed.

Lemma cache_hit_keeps_expiry_witness :
  let req := Demo.request "GET" [("url", "http://site/")] in
  let w1 := (process_request Demo.env req "get" (Demo.clock 1 2 3 4) Demo.fresh_world).2 in
  let w2 := (process_request Demo.env req "get" (Demo.clock 11 12 13 14) w1).2 in
  trace w2 = trace w1
  /\ ResponseCache.expiry <$> ResponseCache.cache (store w2)
     = ResponseCache.expiry <$> ResponseCache.cache (store w1).
Proof.
  intros req w1 w2.
  destruct (proj2 cache_hit_keeps_expiry Demo.env req "get" (Demo.clock 11 12 13 14)
              w1 "http://site/"
              (default []
                 (lookup req (request_params req "get") "GET:http://site/:get:"
                    (Demo.clock 11 12 13 14) (store w1)).1)
              (store w1)) as (_ & Htrace & Hexp).
  - reflexivity.
  - vm_compute. reflexivity.
  - split; [exact Htrace | exact Hexp].
Defined.

(** C2: for a [GET] or [HEAD] request with caching enabled that was
    answered with a response, the same request made while the entry has
    not expired is answered from the cache: the trace gains no outbound
    call, and both responses are the encoding of one and the same page under
    the same parameters, so they differ at most in the [response_time] the
    encoder writes (and are equal when the two elapsed times are). *)
Theorem repeated_request_served_from_cache
    (env : Env) (req : Request) (fmt : string) (clk1 clk2 : Clock)
    (w0 w1 : World) (resp1 : Response) (url : string) :
  let params := request_params req fmt in
  let key := cache_key (method req) url fmt (params !! "charset") in
  cacheable_method (method req) = true ->
  cache_disabled params = false ->
  params !! "url" = Some url ->
  process_request env req fmt clk1 w0 = (Ok (ViewResponse resp1), w1) ->
  (forall i, ResponseCache.cache (store w1) !! key = Some i ->
             (t_lookup clk2 < ResponseCache.expiry i)%Q) ->
  exists (page : PyDict) (resp2 : Response) (w2 : World),
    process_request env req fmt clk2 w1 = (Ok (ViewResponse resp2), w2)
    /\ trace w2 = trace w1
    /\ (create_response env page params (method req)
          (t_start clk1) (t_encode clk1)).2 = Ok resp1
    /\ (create_response env page params (method req)
          (t_start clk2) (t_encode clk2)).2 = Ok resp2
    /\ ((t_encode clk2 - t_start clk2)%Q = (t_encode clk1 - t_start clk1)%Q ->
        resp2 = resp1).
Proof.
  intros params key Hm Hen Hurl Hrun Hfresh.
  assert (Hopt : String.eqb (method req) "OPTIONS" = false)
    by by apply cacheable_not_options.
  assert (Huses : uses_cache req params = true).
  { unfold uses_cache. by rewrite Hm, Hen. }
  (* What the first run encoded, and what it left under the key. *)
  assert (Hfirst : exists page i,
    ResponseCache.cache (store w1) !! key = Some i
    /\ (create_response env page params (method req)
          (t_start clk1) (t_encode clk1)).2 = Ok resp1
    /\ truthy (VDict page) = true
    /\ ResponseCache.data i
       = (create_response env page params (method req)
            (t_start clk1) (t_encode clk1)).1).
  { unfold process_request in Hrun. rewrite Hopt in Hrun.
    fold params in Hrun. rewrite Hurl in Hrun. fold key in Hrun.
    destruct (lookup req params key clk1 (store w0)) as [[cached|] st] eqn:L.
    - destruct (lookup_Some _ _ _ _ _ _ _ L) as (-> & _ & Ht & i0 & Hi0 & _).
      destruct (create_response env cached params (method req)
                  (t_start clk1) (t_encode clk1)) as [cached' r] eqn:C.
      destruct r as [resp|e]; [|done]. injection Hrun as -> <-.
      exists cached, (ResponseCache.Item cached' (ResponseCache.expiry i0)).
      cbn [store]. rewrite (write_back_lookup _ _ _ _ Hi0), C. done.
    - unfold fetch_and_store in Hrun.
      destruct (get_page env params (trace w0)) as [[page|e] tr'] eqn:G; [|done].
      destruct (create_response env page params (method req)
                  (t_start clk1) (t_encode clk1)) as [page' [resp|e]] eqn:C;
        [|done].
      rewrite Huses in Hrun.
      destruct (floor_max_age env params) as [max_age|e]; [|done].
      unfold response_cache_set in Hrun.
      destruct (exceeds_float_range max_age); [done|].
      injection Hrun as -> <-.
      exists page,
        (ResponseCache.Item page' (t_store clk1 + inject_Z max_age)%Q).
      rewrite C, (get_page_truthy _ _ _ _ _ G).
      split; [|done]. unfold ResponseCache.set. simpl. apply lookup_insert_eq. }
  destruct Hfirst as (page & i & Hi & Hresp1 & Htruthy & Hdata).
  specialize (Hfresh i Hi).
  (* The second run hits that entry. *)
  assert (Hhit : lookup req params key clk2 (store w1)
                 = (Some (ResponseCache.data i), store w1)).
  { apply lookup_hit; try done. rewrite Hdata. by apply create_response_truthy. }
  pose proof (create_response_again env page params (method req)
                (t_start clk1) (t_encode clk1) (t_start clk2) (t_encode clk2))
    as Hagain.
  rewrite <- Hdata in Hagain.
  pose proof (create_response_ok env page params (method req)
                (t_start clk1) (t_encode clk1) (t_start clk2) (t_encode clk2))
    as Hok.
  rewrite Hresp1 in Hok.
  destruct (create_response env page params (method req)
              (t_start clk2) (t_encode clk2)) as [page2 [resp2|e]] eqn:C2;
    [|done].
  exists page, resp2,
    {| store := write_back (store w1) key page2; trace := trace w1 |}.
  split.
  { unfold process_request. rewrite Hopt. fold params. rewrite Hurl.
    fold key. rewrite Hhit, Hagain. reflexivity. }
  split; [done|]. split; [done|]. split; [by rewrite C2|].
  intros Hel.
  rewrite (create_response_elapsed env page params (method req) _ _ _ _ Hel) in C2.
  rewrite C2 in Hresp1. by injection Hresp1.
Qed.

Lemma repeated_request_served_from_cache_witness :
  let req := Demo.request "GET" [("url", "http://site/"); ("cacheMaxAge", "1")] in
  let clk1 := Demo.clock 1 2 3 4 in
  let clk2 := Demo.clock 301 302 303 304 in
  let run1 := process_request Demo.env req "get" clk1 Demo.fresh_world in
  let params := request_params req "get" in
  exists (page : PyDict) (resp2 : Response) (w2 : World),
    process_request Demo.env req "get" clk2 run1.2 = (Ok (ViewResponse resp2), w2)
    /\ trace w2 = trace run1.2
    /\ (create_response Demo.env page params "GET" (t_start clk1) (t_encode clk1)).2
       = Ok (Demo.response_of run1.1)
    /\ (create_response Demo.env page params "GET" (t_start clk2) (t_encode clk2)).2
       = Ok resp2
    /\ ((t_encode clk2 - t_start clk2)%Q = (t_encode clk1 - t_start clk1)%Q ->
        resp2 = Demo.response_of run1.1).
Proof.
  intros req clk1 clk2 run1 params.
  apply (repeated_request_served_from_cache Demo.env req "get" clk1 clk2
           Demo.fresh_world run1.2 (Demo.response_of run1.1) "http://site/").
  - reflexivity.
  - reflexivity.
  - reflexivity.
  - vm_compute. reflexivity.
  - intros i Hi. vm_compute in Hi. injection Hi as <-. reflexivity.
Defined.

(** ** Floats among the rationals *)

(** The predicate at the edges of the format: 53 bits, the largest float,
    the smallest subnormal, and a sum that needs rounding. *)
Lemma is_float_boundaries :
  is_float (inject_Z (2 ^ 53)) = true
  /\ is_float (inject_Z (2 ^ 53 + 1)) = false
  /\ is_float (1 # 10) = false
  /\ is_float (inject_Z (2 ^ 1024 - 2 ^ 971)) = true
  /\ is_float (inject_Z (2 ^ 1024 - 2 ^ 970)) = false
  /\ is_float (1 # 2 ^ 1074) = true
  /\ is_float (1 # 2 ^ 1075) = false
  /\ float_sum_exact 4 300 = true
  /\ float_sum_exact (inject_Z (2 ^ 53)) 301 = false.
Proof. vm_compute. repeat split. Qed.



Section RequestParameters.
Variable env : Env.
Implicit Types (req : Request) (fmt : string).

Lemma request_params_of_args req fmt k :
  k <> "requestMethod" -> k <> "format" ->
  request_params req fmt !! k = args req !! k.
Proof.
  intros Hm Hf. unfold request_params. by rewrite !lookup_insert_ne.
Qed.

Lemma cacheable_method_iff m :
  cacheable_method m = true <-> m = "GET" \/ m = "HEAD".
Proof.
  unfold cacheable_method. rewrite orb_true_iff, !String.eqb_eq. done.
Qed.

Lemma cache_disabled_iff req fmt :
  cache_disabled (request_params req fmt) = true
  <-> args req !! "disableCache" = Some "true".
Proof.
  unfold cache_disabled. rewrite request_params_of_args by done.
  destruct (args req !! "disableCache") as [v|]; [|done].
  rewrite String.eqb_eq. split; [by intros ->|by intros [= ->]].
Qed.

Lemma requested_max_age_iff req fmt n :
  requested_max_age env (request_params req fmt) = Ok n
  <-> match args req !! "cacheMaxAge" with
      | Some v => int_of_str env v = Some n
      | None => n = 3600
      end.
Proof.
  unfold requested_max_age, py_int. rewrite request_params_of_args by done.
  destruct (args req !! "cacheMaxAge") as [v|].
  - destruct (int_of_str env v) as [k|]; [|done].
    split; [by intros [= ->]|by intros [= ->]].
  - split; [by intros [= <-]|by intros ->].
Qed.

Lemma uses_cache_iff req fmt :
  uses_cache req (request_params req fmt) = true
  <-> (method req = "GET" \/ method req = "HEAD")
      /\ args req !! "disableCache" <> Some "true".
Proof.
  unfold uses_cache. rewrite andb_true_iff, cacheable_method_iff, negb_true_iff.
  rewrite <- (cache_disabled_iff req fmt).
  destruct (cache_disabled (request_params req fmt)); split;
    intros [? ?]; (split; [done|]); congruence.
Qed.



End RequestParameters.




(** C6 (as stated, refuted): a [callback] parameter that is present but
    empty is not a callback for the encoder; the body is the bare JSON text
    and the response is served as [application/json]. *)
Lemma empty_callback_is_not_wrapped :
  let req := Demo.request "GET" [("url", "http://site/"); ("callback", "")] in
  let run := process_request Demo.env req "json" (Demo.clock 1 2 3 4) Demo.fresh_world in
  let page' :=
    [("contents", VStr "hello");
     ("status", VDict
        [("url", VStr "http://site/"); ("content_type", VStr "text/html");
         ("content_length", VInt 5); ("http_code", VInt 200);
         ("response_time", VFloat (inject_Z 3 - inject_Z 1)%Q)])] in
  request_params req "json" !! "callback" = Some ""
  /\ exists resp,
       run.1 = Ok (ViewResponse resp)
       /\ body resp = VStr (json_text Demo.env (VDict page'))
       /\ body resp <> VStr ("" +:+ "(" +:+ json_text Demo.env (VDict page') +:+ ");")
       /\ served_content_type resp = VStr "application/json".
Proof.
  intros req run page'. split; [reflexivity|].
  eexists. split; [vm_compute; reflexivity|].
  split; [vm_compute; reflexivity|].
  split; [vm_compute; discriminate | reflexivity].
Qed.

(** C6 (amended): when the [callback] parameter is present and not empty,
    every JSON-encoded response has the body [callback(<json>);], where
    [<json>] is the serialisation of the page with its time field, and is
    served as [application/javascript], not [application/json]. *)
Theorem jsonp_wraps_json
    (env : Env) (page page' : PyDict) (params : gmap string string)
    (m callback : string) (start now : Q) (resp : Response) :
  params !! "callback" = Some callback ->
  callback <> "" ->
  raw_passthrough params page = false ->
  create_response env page params m start now = (page', Ok resp) ->
  inject_response_time page (now - start)%Q = Ok page'
  /\ json_dumps env (VDict page') = Ok (json_text env (VDict page'))
  /\ body resp = VStr (callback +:+ "(" +:+ json_text env (VDict page') +:+ ");")
  /\ mimetype resp = Some "application/javascript"
  /\ served_content_type resp = VStr "application/javascript"
  /\ served_content_type resp <> VStr "application/json".
Proof.
  intros Hcb Hne Hraw. unfold create_response. rewrite Hraw.
  destruct (base_headers env params m) as [hdrs|e]; [|done].
  destruct (inject_response_time page (now - start)%Q) as [p1|e]; [|done].
  intros [= -> H]. unfold json_response in H. rewrite Hcb in H. simpl in H.
  apply String.eqb_neq in Hne. rewrite Hne in H.
  unfold json_dumps in *.
  destruct (json_serialisable (VDict page')); [|done].
  injection H as <-. by repeat split.
Qed.

Lemma jsonp_wraps_json_witness :
  let params : gmap string string :=
    list_to_map [("callback", "foo"); ("format", "json")] in
  let page := [("error", VStr "connection refused")] in
  let page' := [("error", VStr "connection refused"); ("response_time", VFloat (3 - 1)%Q)] in
  let resp :=
    Demo.response_of
      (result_map ViewResponse (create_response Demo.env page params "POST" 1%Q 3%Q).2) in
  body resp = VStr ("foo" +:+ "(" +:+ json_text Demo.env (VDict page') +:+ ");")
  /\ mimetype resp = Some "application/javascript".
Proof.
  intros params page page' resp.
  destruct (jsonp_wraps_json Demo.env page page' params "POST" "foo" 1%Q 3%Q resp)
    as (_ & _ & Hbody & Hmime & _).
  - reflexivity.
  - discriminate.
  - reflexivity.
  - vm_compute. reflexivity.
  - split; [exact Hbody | exact Hmime].
Defined.

(** C7 (as stated, refuted): a [raw] request whose fetch fails is answered
    with the JSON object of the error, served as [application/json]. *)
Lemma raw_error_is_json_wrapped :
  let req := Demo.request "GET" [("url", "http://down/")] in
  let run := process_request Demo.env req "raw" (Demo.clock 1 2 3 4) Demo.fresh_world in
  let page' :=
    [("error", VStr "connection refused");
     ("response_time", VFloat (inject_Z 3 - inject_Z 1)%Q)] in
  request_params req "raw" !! "format" = Some "raw"
  /\ exists resp,
       run.1 = Ok (ViewResponse resp)
       /\ body resp = VStr (json_text Demo.env (VDict page'))
       /\ served_content_type resp = VStr "application/json".
Proof.
  intros req run page'. split; [reflexivity|].
  eexists. split; [vm_compute; reflexivity|].
  split; [vm_compute; reflexivity | reflexivity].
Qed.

Lemma request_params_format req fmt :
  request_params req fmt !! "format" = Some fmt.
Proof.
  unfold request_params.
  rewrite lookup_insert_ne by done. apply lookup_insert_eq.
Qed.

Lemma request_params_method req fmt :
  request_params req fmt !! "requestMethod" = Some (method req).
Proof. unfold request_params. apply lookup_insert_eq. Qed.

Lemma raw_passthrough_other_format params page :
  params !! "format" <> Some "raw" -> raw_passthrough params page = false.
Proof.
  unfold raw_passthrough. intros H.
  destruct (params !! "format") as [f|]; [|done].
  destruct (String.eqb_spec f "raw") as [->|]; [done|done].
Qed.

(** C7 (amended): a request with format [info] or method [HEAD] calls no
    decoder; a [raw] response whose page carries no error is the page's
    bytes with the upstream content type, not JSON, and the page is left
    as it was (a [raw] request whose fetch failed is answered with the JSON
    error object); in the content branch every page the fetcher returns has
    a [contents] field, a decoded string or [None] next to a [status] with
    the error, and every response built from it is the JSON text of that
    object, bare or inside a callback. *)
Theorem format_routing :
  (forall (env : Env) (req : Request) (fmt : string) (clk : Clock) (w : World),
     fmt = "info" \/ method req = "HEAD" ->
     filter is_decode (trace (process_request env req fmt clk w).2)
     = filter is_decode (trace w))
  /\
  (forall (env : Env) (page page' : PyDict) (params : gmap string string)
          (m : string) (start now : Q) (resp : Response),
     params !! "format" = Some "raw" ->
     truthy (Dict.get_default page "error" VNone) = false ->
     create_response env page params m start now = (page', Ok resp) ->
     page' = page
     /\ body resp = Dict.get_default page "content" (VBytes [])
     /\ mimetype resp = None
     /\ served_content_type resp
        = Dict.get_default page "contentType" (VStr "text/plain"))
  /\
  (forall (env : Env) (params : gmap string string) (tr tr' : list Event)
          (page : PyDict),
     route params = RouteContents ->
     get_page env params tr = (Ok page, tr') ->
     ((exists text, Dict.get page "contents" = Some (VStr text))
      \/ (Dict.get page "contents" = Some VNone
          /\ exists msg,
               Dict.get page "status" = Some (VDict [("error", VStr msg)])))
     /\ forall (m : string) (start now : Q) (page' : PyDict) (resp : Response),
          create_response env page params m start now = (page', Ok resp) ->
          Dict.get page' "contents" = Dict.get page "contents"
          /\ json_dumps env (VDict page') = Ok (json_text env (VDict page'))
          /\ (body resp = VStr (json_text env (VDict page'))
              \/ exists callback,
                   body resp
                   = VStr (callback +:+ "(" +:+ json_text env (VDict page') +:+ ");"))).
Proof.
  split; [|split].
  - intros env req fmt clk w Hinfo. unfold process_request.
    destruct (String.eqb (method req) "OPTIONS"); [done|].
    destruct (request_params req fmt !! "url") as [url|]; [|done].
    set (params := request_params req fmt).
    set (key := cache_key (method req) url fmt (params !! "charset")).
    destruct (lookup req params key clk (store w)) as [[cached|] st].
    + by destruct (create_response env cached params (method req)
                     (t_start clk) (t_encode clk)).
    + unfold fetch_and_store, get_page.
      rewrite (route_info params).
      2:{ unfold params. rewrite request_params_format, request_params_method.
          destruct Hinfo as [-> | ->]; [by left | by right]. }
      pose proof (get_page_info_no_decode env (params !! "url") (trace w)) as Hnd.
      destruct (get_page_info env (params !! "url") (trace w)) as [[page|e] tr'];
        [|done].
      destruct (create_response env page params (method req)
                  (t_start clk) (t_encode clk)) as [page' [r|e]]; [|done].
      destruct (uses_cache req params); [|done].
      destruct (floor_max_age env params) as [max_age|]; [|done].
      by destruct (response_cache_set _ key page' max_age (t_store clk))
        as [[u|e] st'].
  - intros env page page' params m start now resp Hfmt Herr.
    unfold create_response, raw_passthrough. rewrite Hfmt, Herr. simpl.
    destruct (base_headers env params m) as [hdrs|e]; [|done].
    intros [= <- <-]. simpl. repeat split.
    unfold served_content_type, Dict.get_default. simpl.
    by rewrite dict_get_set_eq.
  - intros env params tr tr' page Hroute Hget.
    pose proof (get_page_contents_shape env _ _ _ _ Hroute Hget) as Hshape.
    split; [exact Hshape|].
    intros m start now page' resp.
    unfold create_response.
    rewrite (raw_passthrough_other_format params page)
      by by apply route_contents_not_raw.
    destruct (base_headers env params m) as [hdrs|e]; [|done].
    destruct (inject_response_time page (now - start)%Q) as [p1|e] eqn:E; [|done].
    intros [= -> H].
    assert (Hc : Dict.get page' "contents" = Dict.get page "contents").
    { unfold inject_response_time in E.
      destruct (Dict.get page "status") as [[| | | | |st]|]; try done;
        injection E as <-; by rewrite dict_get_set_ne. }
    split; [exact Hc|].
    unfold json_response, json_dumps in *.
    destruct (json_serialisable (VDict page')); [|by destruct (given _)].
    split; [done|].
    destruct (given (params !! "callback")) as [cb|]; injection H as <-; simpl;
      [right; by exists cb | by left].
Qed.

Lemma format_routing_witness :
  let head := Demo.request "HEAD" [("url", "http://site/"); ("charset", "latin-1")] in
  let raw_params : gmap string string :=
    list_to_map [("format", "raw"); ("requestMethod", "POST"); ("url", "http://site/")] in
  let get_params : gmap string string :=
    list_to_map [("format", "get"); ("requestMethod", "POST"); ("url", "http://down/")] in
  let page := [("content", VBytes (String.list_byte_of_string "hello"));
               ("contentType", VStr "text/html"); ("contentLength", VInt 5)] in
  filter is_decode
    (trace (process_request Demo.env head "get" (Demo.clock 1 2 3 4) Demo.fresh_world).2)
  = []
  /\ body (Demo.response_of
             (result_map ViewResponse
                (create_response Demo.env page raw_params "POST" 1%Q 3%Q).2))
     = VBytes (String.list_byte_of_string "hello")
  /\ Dict.get (contents_error "connection refused") "contents" = Some VNone.
Proof.
  intros head raw_params get_params page.
  destruct format_routing as (Hinfo & Hraw & Hcontents).
  split; [|split].
  - apply (Hinfo Demo.env head "get" (Demo.clock 1 2 3 4) Demo.fresh_world).
    right. reflexivity.
  - destruct (Hraw Demo.env page page raw_params "POST" 1%Q 3%Q
                (Demo.response_of
                   (result_map ViewResponse
                      (create_response Demo.env page raw_params "POST" 1%Q 3%Q).2)))
      as (_ & Hbody & _); [reflexivity | reflexivity | vm_compute; reflexivity|].
    exact Hbody.
  - destruct (Hcontents Demo.env get_params []
                [EvRequest "POST" (Some "http://down/")]
                (contents_error "connection refused"))
      as [[(text & Htext) | (Hnone & _)] _];
      [reflexivity | vm_compute; reflexivity | discriminate Htext | exact Hnone].
Defined.

(** ** Exceptions that leave the pipeline *)

Section Escapes.
Variable env : Env.

(** An exception of the decoder other than [UnicodeError] leaves
    [get_page_contents]. *)
Lemma get_page_contents_decode_raises url m cs tr r e :
  session_request env tr m url = HttpOk r ->
  cs <> "" ->
  bytes_decode env cs (content r) = DecodeRaises e ->
  (get_page_contents env url m (Some cs) tr).1 = Raise e.
Proof.
  intros Hr Hcs Hd. unfold get_page_contents, given. rewrite Hr.
  apply String.eqb_neq in Hcs. by rewrite Hcs, Hd.
Qed.

(** The same for [get_raw_page], whenever it transcodes. *)
Lemma get_raw_page_decode_raises url m cs tr r e :
  session_request env tr m url = HttpOk r ->
  cs <> "" -> lower cs <> "utf-8" ->
  bytes_decode env cs (content r) = DecodeRaises e ->
  (get_raw_page env url m (Some cs) tr).1 = Raise e.
Proof.
  intros Hr Hcs Hlow Hd. unfold get_raw_page, given. rewrite Hr.
  apply String.eqb_neq in Hcs, Hlow. by rewrite Hcs, Hlow, Hd.
Qed.

(** A [cacheMaxAge] that [int] rejects makes the encoder raise for every
    cacheable request with caching enabled. *)
Lemma create_response_bad_max_age page params m s n v :
  cacheable_method m = true ->
  cache_disabled params = false ->
  params !! "cacheMaxAge" = Some v ->
  int_of_str env v = None ->
  create_response env page params m s n = (page, Raise ValueError).
Proof.
  intros Hm Hd Hv Hint.
  unfold create_response, base_headers, floor_max_age, requested_max_age,
    py_int.
  by rewrite Hm, Hd, Hv, Hint.
Qed.

End Escapes.

(** C4 (the code departs from it): with a reachable upstream, a charset
    name the codec registry does not know makes the content and the raw
    branch raise [LookupError], and a [cacheMaxAge] that is not an integer
    makes the encoder raise [ValueError]; both leave [handle_request]. *)
Lemma invalid_charset_or_max_age_raises :
  let clk := Demo.clock 1 2 3 4 in
  let unknown := Demo.request "GET" [("url", "http://site/"); ("charset", "nope")] in
  let not_int := Demo.request "GET" [("url", "http://site/"); ("cacheMaxAge", "abc")] in
  valid_format "get" = true /\ valid_format "raw" = true
  /\ (handle_request Demo.env unknown "get" clk Demo.fresh_world).1 = Raise LookupError
  /\ (handle_request Demo.env unknown "raw" clk Demo.fresh_world).1 = Raise LookupError
  /\ (handle_request Demo.env not_int "get" clk Demo.fresh_world).1 = Raise ValueError.
Proof. repeat split; vm_compute; reflexivity. Qed.

(** C5 (the code departs from it): a [Content-Length] header that is
    present but not an integer makes [get_page_info] raise [ValueError];
    the field is [-1] only when the header is absent. *)
Lemma unparsable_content_length_raises :
  let info := Demo.request "GET" [("url", "http://odd/")] in
  (exists r, session_request Demo.env [] "HEAD" (Some "http://odd/") = HttpOk r
             /\ resp_headers r !! "content-length" = Some "abc")
  /\ int_of_str Demo.env "abc" = None
  /\ (get_page_info Demo.env (Some "http://odd/") []).1 = Raise ValueError
  /\ (handle_request Demo.env info "info" (Demo.clock 1 2 3 4) Demo.fresh_world).1
     = Raise ValueError
  /\ exists page,
       (get_page_info Demo.env (Some "http://bare/") []).1 = Ok page
       /\ Dict.get page "content_length" = Some (VInt (-1)).
Proof.
  repeat split; try (vm_compute; reflexivity).
  - eexists. split; vm_compute; reflexivity.
  - eexists. split; vm_compute; reflexivity.
Qed.

(** * Further properties of the code *)

(** ** The store under arbitrary use *)

Section StoreUse.
Import ResponseCache.
Implicit Types (self : ResponseCache.t) (key : string) (now : Q).

Lemma get_size_le self key now :
  (size (cache (get self key now).2) <= size (cache self))%nat.
Proof.
  unfold get. destruct (cache self !! key) as [i|] eqn:E; [|done].
  destruct (fresh i now); [done|]. simpl.
  rewrite map_size_delete, E. simpl. lia.
Qed.

Lemma get_keeps_max_size self key now :
  max_size (get self key now).2 = max_size self.
Proof.
  unfold get. destruct (cache self !! key) as [i|]; [|done].
  by destruct (fresh i now).
Qed.

Lemma set_size_le_bound self key v ttl now :
  (size (cache (set self key v ttl now)) <= size_bound self)%nat.
Proof.
  unfold set, size_bound. simpl.
  destruct (Z.leb_spec (max_size self) (Z.of_nat (size (cache self)))) as [Hfull|Hroom].
  - rewrite insert_empty, map_size_singleton. lia.
  - rewrite map_size_insert. destruct (cache self !! key); simpl; lia.
Qed.

Lemma apply_op_max_size self o : max_size (apply_op self o) = max_size self.
Proof. destruct o; simpl; [apply get_keeps_max_size|done]. Qed.

Lemma apply_op_bound self o :
  (size (cache self) <= size_bound self)%nat ->
  (size (cache (apply_op self o)) <= size_bound (apply_op self o))%nat.
Proof.
  intros H. unfold size_bound. rewrite apply_op_max_size. fold (size_bound self).
  destruct o as [key now|i]; simpl.
  - etrans; [apply get_size_le|done].
  - apply set_size_le_bound.
Qed.

Lemma run_ops_bound self l :
  (size (cache self) <= size_bound self)%nat ->
  (size (cache (run_ops self l)) <= size_bound (run_ops self l))%nat
  /\ max_size (run_ops self l) = max_size self.
Proof.
  revert self. induction l as [|o l IH]; intros self H; [done|].
  simpl. destruct (IH (apply_op self o)) as [Hs Hm].
  { by apply apply_op_bound. }
  split; [exact Hs|]. by rewrite Hm, apply_op_max_size.
Qed.

Lemma get_None_absent self key now :
  (get self key now).1 = None -> cache (get self key now).2 !! key = None.
Proof.
  unfold get. destruct (cache self !! key) as [i|] eqn:E; [|by intros _].
  destruct (fresh i now); [done|]. intros _. simpl. apply lookup_delete_eq.
Qed.

End StoreUse.

(** X1: whatever sequence of [get] and [set] calls a fresh store goes
    through, it never holds more than [max_size] entries (one entry when
    [max_size] is below one), and [max_size] never changes. *)
Theorem store_never_exceeds_bound (M : Z) (ops : list cache_op) :
  (size (ResponseCache.cache (run_ops (ResponseCache.init M) ops))
   <= Z.to_nat (Z.max 1 M))%nat
  /\ ResponseCache.max_size (run_ops (ResponseCache.init M) ops) = M.
Proof.
  destruct (run_ops_bound (ResponseCache.init M) ops) as [Hs Hm].
  { simpl. rewrite map_size_empty. lia. }
  split; [|exact Hm]. unfold size_bound in Hs. by rewrite Hm in Hs.
Qed.

(** X3: operations on one key leave every other key alone, except for the
    full clear: [get] never touches another key, and [set] on a store
    below its bound changes the entry of its own key only. *)
Theorem other_keys_untouched
    (self : ResponseCache.t) (key other : string) (value : PyDict) (ttl : Z)
    (now : Q) :
  key <> other ->
  ResponseCache.cache (ResponseCache.get self key now).2 !! other
  = ResponseCache.cache self !! other
  /\ (Z.of_nat (size (ResponseCache.cache self)) < ResponseCache.max_size self ->
      ResponseCache.cache (ResponseCache.set self key value ttl now) !! other
      = ResponseCache.cache self !! other).
Proof.
  intros Hne. split.
  - unfold ResponseCache.get.
    destruct (ResponseCache.cache self !! key) as [i|]; [|done].
    destruct (ResponseCache.fresh i now); [done|]. simpl.
    by apply lookup_delete_ne.
  - intros Hroom. unfold ResponseCache.set. simpl.
    destruct (Z.leb_spec (ResponseCache.max_size self)
                (Z.of_nat (size (ResponseCache.cache self)))); [lia|].
    by apply lookup_insert_ne.
Qed.

Lemma other_keys_untouched_witness :
  let self := ResponseCache.set (ResponseCache.init 2) "a" [("x", VInt 1)] 300 0%Q in
  ResponseCache.cache (ResponseCache.get self "b" 5%Q).2 !! "a"
  = ResponseCache.cache self !! "a"
  /\ ResponseCache.cache (ResponseCache.set self "b" [] 300 1%Q) !! "a"
     = ResponseCache.cache self !! "a".
Proof.
  intros self.
  destruct (other_keys_untouched self "b" "a" [] 300 5%Q) as [Hget _];
    [discriminate|].
  destruct (other_keys_untouched self "b" "a" [] 300 1%Q) as [_ Hset];
    [discriminate|].
  split; [exact Hget | apply Hset; vm_compute; reflexivity].
Defined.

(** X4: visibility is monotone in time.  A key [get] finds at some time is
    found, with the same value and without any change of the store, at
    every earlier time; and once [get] has returned nothing for a key, it
    returns nothing for it at any time until the key is set again. *)
Theorem visibility_is_monotone
    (self : ResponseCache.t) (key : string) (now other : Q) :
  (forall v, (ResponseCache.get self key now).1 = Some v ->
             (other <= now)%Q ->
             ResponseCache.get self key other = (Some v, self))
  /\ ((ResponseCache.get self key now).1 = None ->
      ResponseCache.get (ResponseCache.get self key now).2 key other
      = (None, (ResponseCache.get self key now).2)).
Proof.
  split.
  - intros v Hv Hle.
    destruct (get_Some self key now v Hv) as (i & Hi & <- & Hlt & _).
    unfold ResponseCache.get. rewrite Hi.
    assert (Hf : ResponseCache.fresh i other = true).
    { apply fresh_iff. by apply (Qle_lt_trans _ now). }
    by rewrite Hf.
  - intros Hnone. apply get_None_absent in Hnone.
    unfold ResponseCache.get at 1. by rewrite Hnone.
Qed.

Lemma visibility_is_monotone_witness :
  let self := ResponseCache.set (ResponseCache.init 2) "a" [("x", VInt 1)] 300 0%Q in
  ResponseCache.get self "a" 7%Q = (Some [("x", VInt 1)], self)
  /\ ResponseCache.get (ResponseCache.get self "a" 300%Q).2 "a" 7%Q
     = (None, (ResponseCache.get self "a" 300%Q).2).
Proof.
  intros self.
  destruct (visibility_is_monotone self "a" 299%Q 7%Q) as [Hearlier _].
  destruct (visibility_is_monotone self "a" 300%Q 7%Q) as [_ Hgone].
  split.
  - apply Hearlier; [reflexivity | vm_compute; discriminate].
  - apply Hgone. reflexivity.
Defined.

(** ** The fetcher, branch by branch *)

Section FetcherUse.
Variable env : Env.
Implicit Types (params : gmap string string) (tr : list Event).

Lemma get_page_raw_shape params tr page tr' :
  route params = RouteRaw ->
  get_page env params tr = (Ok page, tr') ->
  (exists r b, page = raw_page r b) \/ (exists msg, page = [("error", VStr msg)]).
Proof.
  intros Hroute. unfold get_page. rewrite Hroute. unfold get_raw_page.
  destruct (session_request env tr _ _) as [r|msg|e];
    [|intros [= <- _]; eauto|done].
  destruct (given (params !! "charset")) as [cs|]; [|intros [= <- _]; eauto].
  destruct (String.eqb (lower cs) "utf-8"); [intros [= <- _]; eauto|].
  destruct (bytes_decode env cs (content r)) as [s| |e]; [| |done].
  - destruct (str_encode_utf8 env s); intros [= <- _]; eauto.
  - intros [= <- _]; eauto.
Qed.

Lemma base_headers_other_keys params m hdrs k :
  base_headers env params m = Ok hdrs ->
  k <> "Cache-Control" -> k <> "Via" -> Dict.get hdrs k = None.
Proof.
  unfold base_headers. cbv zeta. intros H Hcc Hvia.
  destruct (cacheable_method m).
  - destruct (if cache_disabled params then Ok 0 else floor_max_age env params)
      as [n|]; [|done].
    injection H as <-. cbn [Dict.get].
    destruct (String.eqb_spec "Cache-Control" k); [congruence|].
    destruct (String.eqb_spec "Via" k); [congruence|done].
  - injection H as <-. cbn [Dict.get].
    destruct (String.eqb_spec "Via" k); [congruence|done].
Qed.

End FetcherUse.

(** X5: a call of [get_page] makes exactly one outbound HTTP call, for the
    url of the request, with method [HEAD] in the info branch and the
    request's method otherwise; everything else it appends to the trace is
    a decoder call (none in the info branch, at most two otherwise). *)
Theorem fetch_makes_one_call (env : Env) (params : gmap string string) (tr : list Event) :
  exists decodes,
    (get_page env params tr).2
    = tr ++ EvRequest (outbound_method params) (params !! "url") :: decodes
    /\ forallb is_decode decodes = true
    /\ (length decodes <= 2)%nat
    /\ (route params = RouteInfo -> decodes = []).
Proof.
  unfold get_page, outbound_method, get_page_info, get_raw_page, get_page_contents.
  destruct (route params);
    repeat (match goal with
            | |- context [match ?x with _ => _ end] => destruct x
            end; simpl);
    rewrite <- ?app_assoc; simpl; eexists;
    (split; [reflexivity|]); simpl; (split; [reflexivity|]);
    (split; [lia|]); done.
Qed.

(** X6: in the raw branch the [Content-Length] header of a passthrough
    response is the decimal length of the very bytes in its body (after any
    transcoding), and the page is not modified; the only other outcome is
    the JSON answer for a fetch that failed with a non-empty message, which
    carries no [Content-Length] of its own. *)
Theorem raw_content_length_matches_body
    (env : Env) (params : gmap string string) (tr tr' : list Event)
    (page page' : PyDict) (m : string) (start now : Q) (resp : Response) :
  params !! "format" = Some "raw" ->
  route params = RouteRaw ->
  get_page env params tr = (Ok page, tr') ->
  create_response env page params m start now = (page', Ok resp) ->
  (exists b,
     body resp = VBytes b
     /\ Dict.get (headers resp) "Content-Length"
        = Some (VStr (pretty (Z.of_nat (length b))))
     /\ mimetype resp = None /\ page' = page)
  \/ (exists msg,
        msg <> "" /\ page = [("error", VStr msg)]
        /\ mimetype resp <> None
        /\ Dict.get (headers resp) "Content-Length" = None).
Proof.
  intros Hfmt Hroute Hget. unfold create_response.
  destruct (base_headers env params m) as [hdrs|e] eqn:B; [|done].
  destruct (get_page_raw_shape env _ _ _ _ Hroute Hget) as [(r & b & ->)|(msg & ->)].
  - unfold raw_passthrough. rewrite Hfmt. simpl.
    intros [= <- <-]. left. exists b. simpl.
    rewrite dict_get_set_ne, dict_get_set_eq by done. done.
  - unfold raw_passthrough. rewrite Hfmt. simpl.
    destruct (String.eqb_spec msg "") as [->|Hmsg]; simpl.
    + intros [= <- <-]. left. exists []. simpl.
      rewrite dict_get_set_ne, dict_get_set_eq by done. done.
    + intros [= <- H]. right. exists msg. split; [done|]. split; [done|].
      unfold json_response, json_dumps in H. simpl in H.
      destruct (given (params !! "callback")); injection H as <-; simpl;
        (split; [done|]); rewrite dict_get_set_ne by done;
        by apply (base_headers_other_keys env params m).
Qed.

Lemma raw_content_length_matches_body_witness :
  let params : gmap string string :=
    list_to_map [("format", "raw"); ("requestMethod", "POST");
                 ("url", "http://site/"); ("charset", "latin-1")] in
  let page := default [] (match (get_page Demo.env params []).1 with
                          | Ok p => Some p | Raise _ => None end) in
  let resp := Demo.response_of
                (result_map ViewResponse
                   (create_response Demo.env page params "POST" 1%Q 3%Q).2) in
  body resp = VBytes (String.list_byte_of_string "hello")
  /\ Dict.get (headers resp) "Content-Length" = Some (VStr "5").
Proof.
  intros params page resp.
  destruct (raw_content_length_matches_body Demo.env params []
              (get_page Demo.env params []).2 page page "POST" 1%Q 3%Q resp)
    as [(b & Hb & Hlen & _)|(msg & _ & Hpage & _)].
  - reflexivity.
  - reflexivity.
  - vm_compute. reflexivity.
  - vm_compute. reflexivity.
  - split; [reflexivity|]. vm_compute in Hb. injection Hb as <-. exact Hlen.
  - vm_compute in Hpage. discriminate Hpage.
Defined.

(** X7: [get_raw_page] hands the upstream bytes through untouched, with
    their own length, when no charset is given, when the charset is utf-8
    in any letter case (no decoder is called in these cases), and when the
    decoder fails with a [UnicodeError]. *)
Theorem raw_bytes_verbatim
    (env : Env) (url : option string) (m : string) (charset : option string)
    (tr : list Event) (r : HttpResponse) :
  session_request env tr m url = HttpOk r ->
  ((charset = None \/ charset = Some ""
    \/ (exists cs, charset = Some cs /\ lower cs = "utf-8")) ->
   get_raw_page env url m charset tr
   = (Ok (raw_page r (content r)), tr ++ [EvRequest m url]))
  /\ (forall cs, charset = Some cs ->
        bytes_decode env cs (content r) = DecodeUnicodeError ->
        (get_raw_page env url m charset tr).1 = Ok (raw_page r (content r)))
  /\ Dict.get (raw_page r (content r)) "contentLength"
     = Some (VInt (Z.of_nat (length (content r)))).
Proof.
  intros Hr. unfold get_raw_page. rewrite Hr. split; [|split; [|reflexivity]].
  - intros [-> | [-> | (cs & -> & Hlow)]]; [done|done|].
    unfold given. destruct (String.eqb cs ""); [done|]. by rewrite Hlow.
  - intros cs -> Hdec. unfold given.
    destruct (String.eqb cs ""); [done|].
    destruct (String.eqb (lower cs) "utf-8"); [done|]. by rewrite Hdec.
Qed.

Lemma raw_bytes_verbatim_witness :
  let r := {| status_code := 200;
              resp_headers := list_to_map [("content-type", "text/html");
                                           ("content-length", "5")];
              content := String.list_byte_of_string "hello" |} in
  get_raw_page Demo.env (Some "http://site/") "GET" (Some "UTF-8") []
  = (Ok (raw_page r (content r)), [EvRequest "GET" (Some "http://site/")]).
Proof.
  intros r.
  destruct (raw_bytes_verbatim Demo.env (Some "http://site/") "GET" (Some "UTF-8") [] r)
    as [Hsame _]; [reflexivity|].
  apply Hsame. right. right. exists "UTF-8". split; reflexivity.
Defined.

(** X8: in the content branch the [status] block reports the url, the
    upstream content type, the length of the bytes as received and the
    status code, whatever the charset and the decoding; and a charset whose
    decoder fails with a [UnicodeError] gives exactly the page of a request
    without charset. *)
Theorem contents_status_ignores_charset
    (env : Env) (url : option string) (m : string) (charset : option string)
    (tr : list Event) (r : HttpResponse) :
  session_request env tr m url = HttpOk r ->
  (forall page, (get_page_contents env url m charset tr).1 = Ok page ->
     Dict.get page "status"
     = Some (VDict [("url", opt_str url);
                    ("content_type", opt_str (resp_headers r !! "content-type"));
                    ("content_length", VInt (Z.of_nat (length (content r))));
                    ("http_code", VInt (status_code r))])
     /\ exists text, Dict.get page "contents" = Some (VStr text))
  /\ (forall cs, charset = Some cs ->
        bytes_decode env cs (content r) = DecodeUnicodeError ->
        (get_page_contents env url m charset tr).1
        = (get_page_contents env url m None tr).1).
Proof.
  intros Hr. unfold get_page_contents. rewrite Hr. split.
  - intros page.
    destruct (given charset) as [cs|]; [|intros [= <-]; by eauto].
    destruct (bytes_decode env cs (content r)); [| |done];
      intros [= <-]; by eauto.
  - intros cs -> Hdec. unfold given.
    destruct (String.eqb cs ""); [done|]. by rewrite Hdec.
Qed.

Lemma contents_status_ignores_charset_witness :
  let r := {| status_code := 200;
              resp_headers := list_to_map [("content-type", "text/html");
                                           ("content-length", "5")];
              content := String.list_byte_of_string "hello" |} in
  Dict.get (contents_page (Some "http://site/") r "hello") "status"
  = Some (VDict [("url", VStr "http://site/"); ("content_type", VStr "text/html");
                 ("content_length", VInt 5); ("http_code", VInt 200)]).
Proof.
  intros r.
  destruct (contents_status_ignores_charset Demo.env (Some "http://site/") "GET"
              (Some "latin-1") [] r) as [Hstatus _]; [reflexivity|].
  destruct (Hstatus (contents_page (Some "http://site/") r "hello")) as [H _];
    [vm_compute; reflexivity | exact H].
Defined.

(** ** The pipeline around the cache *)

Section PipelineUse.
Variable env : Env.
Implicit Types (req : Request) (params : gmap string string)
  (st : ResponseCache.t) (w : World) (clk : Clock) (tr : list Event).

Lemma request_params_arg req fmt k :
  k <> "requestMethod" -> k <> "format" ->
  request_params req fmt !! k = args req !! k.
Proof.
  intros H1 H2. unfold request_params. by rewrite !lookup_insert_ne.
Qed.

(** The events of one fetch: one outbound call, the rest decoder calls. *)
Lemma get_page_events params tr :
  exists evs,
    (get_page env params tr).2 = tr ++ evs
    /\ length (filter is_request evs) = 1%nat.
Proof.
  unfold get_page, get_page_info, get_raw_page, get_page_contents.
  destruct (route params);
    repeat (match goal with
            | |- context [match ?x with _ => _ end] => destruct x
            end; simpl);
    rewrite <- ?app_assoc; eexists; (split; [reflexivity|]); reflexivity.
Qed.

Lemma get_page_first_event params tr :
  exists evs,
    (get_page env params tr).2
    = tr ++ EvRequest (outbound_method params) (params !! "url") :: evs
    /\ forallb is_decode evs = true.
Proof.
  unfold get_page, outbound_method, get_page_info, get_raw_page, get_page_contents.
  destruct (route params);
    repeat (match goal with
            | |- context [match ?x with _ => _ end] => destruct x
            end; simpl);
    rewrite <- ?app_assoc; simpl; eexists; (split; [reflexivity|]); reflexivity.
Qed.

(** What the lookup leaves of the store: the store itself, or the store
    without the entry of the key. *)
Lemma lookup_store req params key clk st :
  (lookup req params key clk st).2 = st
  \/ ((lookup req params key clk st).1 = None
      /\ (lookup req params key clk st).2
         = ResponseCache.Make (delete key (ResponseCache.cache st))
             (ResponseCache.max_size st)).
Proof.
  unfold lookup. destruct (uses_cache req params); [|by left].
  unfold ResponseCache.get.
  destruct (ResponseCache.cache st !! key) as [i|]; [|by left].
  destruct (ResponseCache.fresh i (t_lookup clk)).
  - destruct (truthy (VDict (ResponseCache.data i))); by left.
  - by right.
Qed.

Lemma lookup_bypass req params key clk st :
  uses_cache req params = false -> lookup req params key clk st = (None, st).
Proof. intros H. unfold lookup. by rewrite H. Qed.

Lemma fetch_and_store_trace req params key clk st tr :
  trace (fetch_and_store env req params key clk st tr).2
  = (get_page env params tr).2.
Proof.
  unfold fetch_and_store.
  destruct (get_page env params tr) as [[page|e] tr']; [|done].
  destruct (create_response env page params (method req)
              (t_start clk) (t_encode clk)) as [page' [r|e]]; [|done].
  destruct (uses_cache req params); [|done].
  destruct (floor_max_age env params) as [max_age|]; [|done].
  by destruct (response_cache_set st key page' max_age (t_store clk))
    as [[u|e] st'].
Qed.


End PipelineUse.

(** X9: input errors are answered on the spot: an unknown format segment
    and a missing [url] parameter give the 400 answers with their fixed
    messages, an [OPTIONS] request the empty answer, and none of them reads
    or writes the cache or makes an outbound call. *)
Theorem input_errors_touch_nothing
    (env : Env) (req : Request) (fmt : string) (clk : Clock) (w : World) :
  (valid_format fmt = false ->
   handle_request env req fmt clk w
   = (Ok (ViewError [("error", VStr "Invalid format. Use one of: get, raw, json, info")] 400), w))
  /\ (valid_format fmt = true -> method req = "OPTIONS" ->
      handle_request env req fmt clk w = (Ok ViewEmpty, w))
  /\ (valid_format fmt = true -> method req <> "OPTIONS" ->
      args req !! "url" = None ->
      handle_request env req fmt clk w
      = (Ok (ViewError [("error", VStr "No URL provided. Please add a url parameter.")] 400), w)).
Proof.
  unfold handle_request, process_request. repeat split.
  - by intros ->.
  - intros -> ->. reflexivity.
  - intros -> Hm Hurl. apply String.eqb_neq in Hm. rewrite Hm.
    by rewrite request_params_arg, Hurl.
Qed.

Lemma input_errors_touch_nothing_witness :
  let w := Demo.fresh_world in
  let clk := Demo.clock 1 2 3 4 in
  handle_request Demo.env (Demo.request "GET" [("url", "http://site/")]) "xml" clk w
  = (Ok (ViewError [("error", VStr "Invalid format. Use one of: get, raw, json, info")] 400), w)
  /\ handle_request Demo.env (Demo.request "OPTIONS" []) "get" clk w = (Ok ViewEmpty, w)
  /\ handle_request Demo.env (Demo.request "POST" [("charset", "x")]) "raw" clk w
     = (Ok (ViewError [("error", VStr "No URL provided. Please add a url parameter.")] 400), w).
Proof.
  intros w clk.
  destruct (input_errors_touch_nothing Demo.env
              (Demo.request "GET" [("url", "http://site/")]) "xml" clk w) as (H1 & _).
  destruct (input_errors_touch_nothing Demo.env (Demo.request "OPTIONS" []) "get" clk w)
    as (_ & H2 & _).
  destruct (input_errors_touch_nothing Demo.env
              (Demo.request "POST" [("charset", "x")]) "raw" clk w) as (_ & _ & H3).
  split; [apply H1; reflexivity|].
  split; [apply H2; reflexivity|].
  apply H3; [reflexivity | discriminate | reflexivity].
Defined.

(** X10: a request whose method is neither [GET] nor [HEAD], or that sets
    [disableCache] to ["true"], goes around the cache: the store is left
    exactly as it was, and the answer and the trace are the same whatever
    the store holds. *)
Theorem uncached_request_bypasses_store
    (env : Env) (req : Request) (fmt : string) (clk : Clock) (w : World)
    (st : ResponseCache.t) :
  uses_cache req (request_params req fmt) = false ->
  store (process_request env req fmt clk w).2 = store w
  /\ (process_request env req fmt clk {| store := st; trace := trace w |}).1
     = (process_request env req fmt clk w).1
  /\ trace (process_request env req fmt clk {| store := st; trace := trace w |}).2
     = trace (process_request env req fmt clk w).2.
Proof.
  intros Hu. unfold process_request.
  destruct (String.eqb (method req) "OPTIONS"); [done|].
  destruct (request_params req fmt !! "url") as [url|]; [|done].
  rewrite !lookup_bypass by done. simpl.
  unfold fetch_and_store. rewrite Hu.
  destruct (get_page env (request_params req fmt) (trace w)) as [[page|e] tr'];
    [|done].
  by destruct (create_response env page (request_params req fmt) (method req)
                 (t_start clk) (t_encode clk)) as [page' [r|e]].
Qed.

Lemma uncached_request_bypasses_store_witness :
  let req := Demo.request "GET" [("url", "http://site/"); ("disableCache", "true")] in
  store (process_request Demo.env req "get" (Demo.clock 1 2 3 4) Demo.fresh_world).2
  = store Demo.fresh_world.
Proof.
  intros req.
  destruct (uncached_request_bypasses_store Demo.env req "get" (Demo.clock 1 2 3 4)
              Demo.fresh_world (ResponseCache.init 0)) as [H _];
    [reflexivity | exact H].
Defined.

(** X11: one run of the pipeline only appends to the trace, and what it
    appends contains at most one outbound call. *)
Theorem request_makes_at_most_one_call
    (env : Env) (req : Request) (fmt : string) (clk : Clock) (w : World) :
  exists evs,
    trace (process_request env req fmt clk w).2 = trace w ++ evs
    /\ (length (filter is_request evs) <= 1)%nat.
Proof.
  assert (Hnone : forall tr : list Event,
            exists evs, tr = tr ++ evs /\ (length (filter is_request evs) <= 1)%nat).
  { intros tr. exists []. rewrite app_nil_r. simpl. split; [done|lia]. }
  unfold process_request.
  destruct (String.eqb (method req) "OPTIONS"); [apply Hnone|].
  destruct (request_params req fmt !! "url") as [url|]; [|apply Hnone].
  destruct (lookup req (request_params req fmt) _ clk (store w)) as [[cached|] st].
  - destruct (create_response env cached _ _ _ _) as [cached' r]. apply Hnone.
  - rewrite fetch_and_store_trace.
    destruct (get_page_events env (request_params req fmt) (trace w))
      as (evs & -> & Hone).
    exists evs. split; [done|lia].
Qed.

Section EncoderUse.
Variable env : Env.
Implicit Types (page : PyDict) (params : gmap string string) (m : string).

(** The encoder adds [Content-Length] and [Content-Type] to the base
    headers and changes nothing else in them. *)
Lemma create_response_base_header page params m s n page' resp :
  create_response env page params m s n = (page', Ok resp) ->
  exists hdrs,
    base_headers env params m = Ok hdrs
    /\ forall k, k <> "Content-Length" -> k <> "Content-Type" ->
                 Dict.get (headers resp) k = Dict.get hdrs k.
Proof.
  unfold create_response.
  destruct (base_headers env params m) as [hdrs|e]; [|done].
  intros H. exists hdrs. split; [done|]. intros k Hcl Hct.
  destruct (raw_passthrough params page).
  - injection H as _ <-. simpl. by rewrite !dict_get_set_ne.
  - destruct (inject_response_time page (n - s)%Q) as [p1|]; [|done].
    injection H as _ H. unfold json_response in H.
    destruct (given (params !! "callback")), (json_dumps env (VDict p1));
      try done; injection H as <-; simpl; by rewrite dict_get_set_ne.
Qed.

Lemma base_headers_via params m hdrs :
  base_headers env params m = Ok hdrs ->
  Dict.get hdrs "Via" = Some (VStr "pyroxy-py v1.0.0").
Proof.
  unfold base_headers. cbv zeta. intros H.
  destruct (cacheable_method m).
  - destruct (if cache_disabled params then Ok 0 else floor_max_age env params)
      as [k|]; [|done].
    by injection H as <-.
  - by injection H as <-.
Qed.

End EncoderUse.

(** X12: every response the encoder builds carries the [Via] header of
    this proxy; it carries [Cache-Control] exactly for [GET] and [HEAD],
    and then [max-age] is [0] or at least [300], never a value between. *)
Theorem response_headers_stamped
    (env : Env) (page page' : PyDict) (params : gmap string string)
    (m : string) (start now : Q) (resp : Response) :
  create_response env page params m start now = (page', Ok resp) ->
  Dict.get (headers resp) "Via" = Some (VStr "pyroxy-py v1.0.0")
  /\ (cacheable_method m = false ->
      Dict.get (headers resp) "Cache-Control" = None)
  /\ (cacheable_method m = true ->
      exists n,
        Dict.get (headers resp) "Cache-Control"
        = Some (VStr ("public, max-age=" +:+ pretty n +:+ ", stale-if-error=600"))
        /\ (n = 0 \/ 300 <= n)).
Proof.
  intros C.
  destruct (create_response_base_header env _ _ _ _ _ _ _ C) as (hdrs & B & Hsame).
  rewrite !Hsame by done. split; [by apply (base_headers_via env params m)|].
  split.
  - intros Hm. unfold base_headers in B. rewrite Hm in B. by injection B as <-.
  - intros Hm.
    destruct (base_headers_cache_control env params m hdrs Hm B) as (n & Hn & Hcc).
    exists n. split; [done|].
    destruct (cache_disabled params); [left; by injection Hn|right].
    unfold floor_max_age in Hn.
    destruct (requested_max_age env params) as [k|]; [|done].
    injection Hn as <-. unfold MIN_CACHE_TIME. lia.
Qed.

Lemma response_headers_stamped_witness :
  let params : gmap string string := list_to_map [("format", "json")] in
  let resp := Demo.response_of
                (result_map ViewResponse
                   (create_response Demo.env [("error", VStr "x")] params "POST" 1%Q 3%Q).2) in
  Dict.get (headers resp) "Via" = Some (VStr "pyroxy-py v1.0.0")
  /\ Dict.get (headers resp) "Cache-Control" = None.
Proof.
  intros params resp.
  destruct (response_headers_stamped Demo.env [("error", VStr "x")]
              (create_response Demo.env [("error", VStr "x")] params "POST" 1%Q 3%Q).1
              params "POST" 1%Q 3%Q resp) as (Hvia & Hnone & _).
  - vm_compute. reflexivity.
  - split; [exact Hvia | apply Hnone; reflexivity].
Defined.

(** X13: when the encoder answers in JSON, the page it leaves behind is
    the page it got plus the elapsed time: inside [status] when the page has
    a [status] dict (the top level is then unchanged), at the top level
    otherwise; every other field keeps its value. *)
Theorem response_time_placement
    (env : Env) (page page' : PyDict) (params : gmap string string)
    (m : string) (start now : Q) (resp : Response) :
  raw_passthrough params page = false ->
  create_response env page params m start now = (page', Ok resp) ->
  (forall st, Dict.get page "status" = Some (VDict st) ->
     Dict.get page' "status"
     = Some (VDict (Dict.set st "response_time" (VFloat (now - start)%Q)))
     /\ Dict.get page' "response_time" = Dict.get page "response_time")
  /\ (Dict.get page "status" = None ->
      Dict.get page' "response_time" = Some (VFloat (now - start)%Q))
  /\ (forall k, k <> "status" -> k <> "response_time" ->
        Dict.get page' k = Dict.get page k).
Proof.
  intros Hraw. unfold create_response. rewrite Hraw.
  destruct (base_headers env params m) as [hdrs|e]; [|done].
  destruct (inject_response_time page (now - start)%Q) as [p1|e] eqn:E; [|done].
  intros [= -> _]. unfold inject_response_time in E.
  destruct (Dict.get page "status") as [[| | | | |st0]|] eqn:S; try done;
    injection E as <-.
  - split; [|split].
    + intros st [= <-]. by rewrite dict_get_set_eq, dict_get_set_ne.
    + done.
    + intros k Hs _. by rewrite dict_get_set_ne.
  - split; [|split].
    + done.
    + intros _. apply dict_get_set_eq.
    + intros k _ Hr. by rewrite dict_get_set_ne.
Qed.

Lemma response_time_placement_witness :
  let params : gmap string string := list_to_map [("format", "json")] in
  let page := contents_error "down" in
  let page' := (create_response Demo.env page params "POST" 1%Q 3%Q).1 in
  Dict.get page' "status"
  = Some (VDict [("error", VStr "down"); ("response_time", VFloat (3 - 1)%Q)])
  /\ Dict.get page' "contents" = Some VNone.
Proof.
  intros params page page'.
  destruct (response_time_placement Demo.env page page' params "POST" 1%Q 3%Q
              (Demo.response_of
                 (result_map ViewResponse
                    (create_response Demo.env page params "POST" 1%Q 3%Q).2)))
    as (Hstatus & _ & Hother).
  - reflexivity.
  - vm_compute. reflexivity.
  - split.
    + destruct (Hstatus [("error", VStr "down")]) as [H _]; [reflexivity|exact H].
    + rewrite Hother; [reflexivity | discriminate | discriminate].
Defined.

(** X14: a [HEAD] request on the raw format is probed like an info request
    and then encoded as a raw passthrough of a page that has no [content]:
    when the probe succeeds, the answer has an empty body, [Content-Length]
    ["0"] and [Content-Type] ["text/plain"], and what the probe found is not
    reported. *)
Theorem head_request_in_raw_format
    (env : Env) (params : gmap string string) (tr : list Event)
    (r : HttpResponse) (m : string) (start now : Q) (hdrs : PyDict) :
  params !! "requestMethod" = Some "HEAD" ->
  params !! "format" = Some "raw" ->
  session_request env tr "HEAD" (params !! "url") = HttpOk r ->
  (get_page_info env (params !! "url") tr).1 <> Raise ValueError ->
  base_headers env params m = Ok hdrs ->
  exists page,
    get_page env params tr = (Ok page, tr ++ [EvRequest "HEAD" (params !! "url")])
    /\ create_response env page params m start now
       = (page,
          Ok {| body := VBytes [];
                headers := Dict.set (Dict.set hdrs "Content-Length" (VStr "0"))
                             "Content-Type" (VStr "text/plain");
                mimetype := None |}).
Proof.
  intros Hm Hfmt Hr Hlen Hbase.
  unfold get_page. rewrite (route_info params) by by right.
  unfold get_page_info in *. rewrite Hr in *.
  destruct (match resp_headers r !! "content-length" with
            | Some s => py_int env s
            | None => Ok (-1)
            end) as [k|e] eqn:L.
  2:{ unfold py_int in L. destruct (resp_headers r !! "content-length") as [v|];
        [|done]. destruct (int_of_str env v); [done|]. by injection L as <-. }
  eexists. split; [reflexivity|].
  unfold create_response, raw_passthrough. rewrite Hbase, Hfmt. reflexivity.
Qed.

Lemma head_request_in_raw_format_witness :
  let req := Demo.request "HEAD" [("url", "http://site/")] in
  body (Demo.response_of
          (process_request Demo.env req "raw" (Demo.clock 1 2 3 4) Demo.fresh_world).1)
  = VBytes [].
Proof.
  intros req.
  destruct (head_request_in_raw_format Demo.env (request_params req "raw") []
              {| status_code := 200;
                 resp_headers := list_to_map [("content-type", "text/html");
                                              ("content-length", "5")];
                 content := String.list_byte_of_string "hello" |}
              "HEAD" 1%Q 3%Q
              [("Cache-Control", VStr "public, max-age=3600, stale-if-error=600");
               ("Via", VStr "pyroxy-py v1.0.0")])
    as (page & Hget & Henc).
  - reflexivity.
  - reflexivity.
  - reflexivity.
  - vm_compute. discriminate.
  - vm_compute. reflexivity.
  - unfold process_request, fetch_and_store. simpl String.eqb. cbv iota.
    change (request_params req "raw" !! "url") with (Some "http://site/").
    cbv iota beta.
    change (lookup req (request_params req "raw") _ _ _)
      with (@None PyDict, store Demo.fresh_world).
    cbv iota beta. change (trace Demo.fresh_world) with (@nil Event).
    rewrite Hget. change (t_start (Demo.clock 1 2 3 4)) with 1%Q.
    change (t_encode (Demo.clock 1 2 3 4)) with 3%Q. change (method req) with "HEAD".
    rewrite Henc. reflexivity.
Defined.

(** ** What the pipeline stores *)

Section StoreInPipeline.
Variable env : Env.
Implicit Types (req : Request) (params : gmap string string)
  (st : ResponseCache.t) (w : World) (clk : Clock) (tr : list Event).

Lemma uses_cache_true req params :
  uses_cache req params = true ->
  cacheable_method (method req) = true /\ cache_disabled params = false.
Proof.
  unfold uses_cache. intros H. apply andb_true_iff in H as [? H].
  by apply negb_true_iff in H.
Qed.



End StoreInPipeline.



(** X16: an entry that has expired does not survive the next cacheable
    request for its key: the lookup drops it and the pipeline goes out to
    fetch, and afterwards the key holds either nothing (the request raised)
    or a new entry that expires the floor-adjusted TTL after the clock
    reading of [set]. *)
Theorem expired_entry_is_replaced
    (env : Env) (req : Request) (fmt : string) (clk : Clock) (w : World)
    (url : string) (i : ResponseCache.item) :
  let params := request_params req fmt in
  let key := cache_key (method req) url fmt (params !! "charset") in
  uses_cache req params = true ->
  params !! "url" = Some url ->
  ResponseCache.cache (store w) !! key = Some i ->
  ~ (t_lookup clk < ResponseCache.expiry i)%Q ->
  let w' := (process_request env req fmt clk w).2 in
  (exists evs,
     trace w' = trace w ++ EvRequest (outbound_method params) (Some url) :: evs)
  /\ (ResponseCache.cache (store w') !! key = None
      \/ exists page' n,
           requested_max_age env params = Ok n
           /\ ResponseCache.cache (store w') !! key
              = Some (ResponseCache.Item page'
                        (t_store clk + inject_Z (Z.max 300 n))%Q)).
Proof.
  intros params key Hu Hurl Hi Hexp w'.
  destruct (uses_cache_true _ _ Hu) as [Hm Hen].
  assert (Hlook : lookup req params key clk (store w)
                  = (None, ResponseCache.Make
                             (delete key (ResponseCache.cache (store w)))
                             (ResponseCache.max_size (store w)))).
  { unfold lookup, ResponseCache.get. rewrite Hu, Hi.
    apply fresh_false_iff in Hexp. by rewrite Hexp. }
  assert (Hw' : w' = (fetch_and_store env req params key clk
                        (ResponseCache.Make
                           (delete key (ResponseCache.cache (store w)))
                           (ResponseCache.max_size (store w)))
                        (trace w)).2).
  { unfold w', process_request.
    rewrite (cacheable_not_options _ Hm). fold params. rewrite Hurl. fold key.
    by rewrite Hlook. }
  rewrite Hw'. split.
  - rewrite fetch_and_store_trace.
    destruct (get_page_first_event env params (trace w)) as (evs & -> & _).
    rewrite Hurl. by exists evs.
  - unfold fetch_and_store.
    destruct (get_page env params (trace w)) as [[page|e] tr'];
      [|left; simpl; apply lookup_delete_eq].
    destruct (create_response env page params (method req)
                (t_start clk) (t_encode clk)) as [page' [r|e]];
      [|left; simpl; apply lookup_delete_eq].
    rewrite Hu. unfold floor_max_age.
    destruct (requested_max_age env params) as [n|e]; simpl;
      [|left; apply lookup_delete_eq].
    unfold response_cache_set.
    destruct (exceeds_float_range (Z.max MIN_CACHE_TIME n)); simpl.
    + left. destruct (_ <=? _); [apply lookup_empty|apply lookup_delete_eq].
    + right. exists page', n. split; [done|].
      unfold ResponseCache.set. simpl. apply lookup_insert_eq.
Qed.

Lemma expired_entry_is_replaced_witness :
  let req := Demo.request "GET" [("url", "http://site/")] in
  let w := {| store := ResponseCache.Make
                         {[ "GET:http://site/:get:" :=
                              ResponseCache.Item [("error", VStr "old")] 2%Q ]} 1000;
              trace := [] |} in
  let w' := (process_request Demo.env req "get" (Demo.clock 1 2 3 4) w).2 in
  exists evs, trace w' = [] ++ EvRequest "GET" (Some "http://site/") :: evs.
Proof.
  intros req w w'.
  destruct (expired_entry_is_replaced Demo.env req "get" (Demo.clock 1 2 3 4) w
              "http://site/" (ResponseCache.Item [("error", VStr "old")] 2%Q))
    as [Htrace _].
  - reflexivity.
  - reflexivity.
  - reflexivity.
  - vm_compute. discriminate.
  - exact Htrace.
Defined.

(** X17: the pipeline keeps the store well formed.  Whatever the request
    and its outcome, [max_size] is unchanged, a store within its size bound
    stays within it, and if every stored page is a non-empty dict (so that
    a fresh entry always counts as a hit) this still holds afterwards. *)
Theorem pipeline_keeps_store_well_formed
    (env : Env) (req : Request) (fmt : string) (clk : Clock) (w : World) :
  let w' := (process_request env req fmt clk w).2 in
  ResponseCache.max_size (store w') = ResponseCache.max_size (store w)
  /\ ((size (ResponseCache.cache (store w)) <= size_bound (store w))%nat ->
      (size (ResponseCache.cache (store w')) <= size_bound (store w'))%nat)
  /\ (map_Forall (fun _ i => truthy (VDict (ResponseCache.data i)) = true)
        (ResponseCache.cache (store w)) ->
      map_Forall (fun _ i => truthy (VDict (ResponseCache.data i)) = true)
        (ResponseCache.cache (store w'))).
Proof.
  intros w'. unfold w', process_request.
  destruct (String.eqb (method req) "OPTIONS"); [done|].
  destruct (request_params req fmt !! "url") as [url|]; [|done].
  set (params := request_params req fmt).
  set (key := cache_key (method req) url fmt (params !! "charset")).
  destruct (lookup req params key clk (store w)) as [[cached|] st] eqn:L.
  - (* a hit: the page object of one entry is updated in place *)
    destruct (lookup_Some _ _ _ _ _ _ _ L) as (-> & _ & Ht & _).
    pose proof (create_response_truthy env cached params (method req)
                  (t_start clk) (t_encode clk) Ht) as Ht'.
    destruct (create_response env cached params (method req)
                (t_start clk) (t_encode clk)) as [cached' r].
    cbn [snd store]. split; [done|]. split.
    + intros Hb. unfold size_bound in *. cbn [write_back ResponseCache.max_size].
      rewrite <- (map_size_fmap ResponseCache.expiry), write_back_expiry.
      by rewrite map_size_fmap.
    + intros Hall k i. unfold write_back. simpl.
      rewrite lookup_alter. case_decide as Hk.
      * destruct (ResponseCache.cache (store w) !! key); [|done].
        by intros [= <-].
      * apply Hall.
  - (* a miss: possibly one deletion, then possibly one [set] *)
    assert (Hst : ResponseCache.max_size st = ResponseCache.max_size (store w)
              /\ (size (ResponseCache.cache st)
                  <= size (ResponseCache.cache (store w)))%nat
              /\ (map_Forall (fun _ i => truthy (VDict (ResponseCache.data i)) = true)
                    (ResponseCache.cache (store w)) ->
                  map_Forall (fun _ i => truthy (VDict (ResponseCache.data i)) = true)
                    (ResponseCache.cache st))).
    { destruct (lookup_store req params key clk (store w)) as [H|[_ H]];
        rewrite L in H; simpl in H; subst st.
      - done.
      - simpl. split; [done|]. split.
        + rewrite map_size_delete.
          destruct (ResponseCache.cache (store w) !! key); simpl; lia.
        + apply map_Forall_delete. }
    destruct Hst as (Hmax & Hsize & Hall).
    unfold fetch_and_store.
    destruct (get_page env params (trace w)) as [[page|e] tr'] eqn:G.
    2:{ cbn [snd store]. unfold size_bound. rewrite Hmax.
        split; [done|]. split; [lia|done]. }
    pose proof (create_response_truthy env page params (method req)
                  (t_start clk) (t_encode clk)
                  (get_page_truthy env _ _ _ _ G)) as Ht'.
    destruct (create_response env page params (method req)
                (t_start clk) (t_encode clk)) as [page' [r|e]].
    2:{ cbn [snd store]. unfold size_bound. rewrite Hmax.
        split; [done|]. split; [lia|done]. }
    destruct (uses_cache req params).
    2:{ cbn [snd store]. unfold size_bound. rewrite Hmax.
        split; [done|]. split; [lia|done]. }
    destruct (floor_max_age env params) as [max_age|e].
    2:{ cbn [snd store]. unfold size_bound. rewrite Hmax.
        split; [done|]. split; [lia|done]. }
    unfold response_cache_set.
    destruct (exceeds_float_range max_age).
    { (* [set] raised: the store is cleared or as the lookup left it *)
      cbn [snd store]. unfold size_bound. cbn [ResponseCache.max_size].
      rewrite Hmax. split; [done|]. split.
      - intros Hb. cbn [ResponseCache.cache].
        destruct (ResponseCache.max_size (store w) <=? _);
          [rewrite map_size_empty|]; lia.
      - intros Hw. specialize (Hall Hw). cbn [ResponseCache.cache].
        destruct (ResponseCache.max_size (store w) <=? _);
          [apply map_Forall_empty|done]. }
    cbn [snd store]. split; [done|]. split.
    + intros _. exact (set_size_le_bound st key page' max_age (t_store clk)).
    + intros Hw. specialize (Hall Hw). unfold ResponseCache.set. simpl in *.
      apply map_Forall_insert_2; [exact Ht'|].
      destruct (ResponseCache.max_size st <=? _); [apply map_Forall_empty|done].
Qed.

Lemma pipeline_keeps_store_well_formed_witness :
  let req := Demo.request "GET" [("url", "http://site/")] in
  let w' := (process_request Demo.env req "get" (Demo.clock 1 2 3 4) Demo.fresh_world).2 in
  (size (ResponseCache.cache (store w')) <= size_bound (store w'))%nat.
Proof.
  intros req w'.
  destruct (pipeline_keeps_store_well_formed Demo.env req "get" (Demo.clock 1 2 3 4)
              Demo.fresh_world) as (_ & Hsize & _).
  apply Hsize. vm_compute. lia.
Defined.

(** ** Requests that cannot fail *)

Section Answered.
Variable env : Env.
Implicit Types (params : gmap string string) (tr : list Event).




End Answered.



(** ** Parameters the pipeline does not look at *)

Section Irrelevance.
Variable env : Env.
Implicit Types (p q : gmap string string) (tr : list Event).

(** [get_page] reads four parameters. *)
Lemma get_page_ext p q tr :
  p !! "url" = q !! "url" ->
  p !! "requestMethod" = q !! "requestMethod" ->
  p !! "charset" = q !! "charset" ->
  route p = route q ->
  get_page env p tr = get_page env q tr.
Proof.
  intros Hu Hm Hc Hr. unfold get_page. by rewrite Hu, Hm, Hc, Hr.
Qed.

(** [create_response] reads the parameters through its base headers, the
    raw test, the charset and the callback. *)
Lemma create_response_ext p q page m s n :
  base_headers env p m = base_headers env q m ->
  raw_passthrough p page = raw_passthrough q page ->
  p !! "charset" = q !! "charset" ->
  p !! "callback" = q !! "callback" ->
  create_response env page p m s n = create_response env page q m s n.
Proof.
  intros Hb Hr Hc Hcb. unfold create_response, json_response.
  by rewrite Hb, Hr, Hc, Hcb.
Qed.

Lemma base_headers_ext p q m :
  p !! "disableCache" = q !! "disableCache" ->
  p !! "cacheMaxAge" = q !! "cacheMaxAge" ->
  base_headers env p m = base_headers env q m.
Proof.
  intros Hd Ha.
  unfold base_headers, cache_disabled, floor_max_age, requested_max_age.
  by rewrite Hd, Ha.
Qed.

End Irrelevance.

(** X19: the formats [get] and [json] are synonyms for the fetcher and for
    the encoder: the same request fetches the same page with the same
    outbound calls and is encoded to the same response under either; only
    the cache key tells them apart. *)
Theorem get_and_json_formats_agree
    (env : Env) (req : Request) (tr : list Event) (page : PyDict) (start now : Q) :
  get_page env (request_params req "get") tr
  = get_page env (request_params req "json") tr
  /\ create_response env page (request_params req "get") (method req) start now
     = create_response env page (request_params req "json") (method req) start now
  /\ forall url charset,
       cache_key (method req) url "get" charset
       <> cache_key (method req) url "json" charset.
Proof.
  split; [|split].
  - apply get_page_ext; try by rewrite !request_params_arg.
    + by rewrite !request_params_method.
    + unfold route. by rewrite !request_params_format, !request_params_method.
  - apply create_response_ext; try by rewrite !request_params_arg.
    + apply base_headers_ext; by rewrite !request_params_arg.
    + unfold raw_passthrough. by rewrite !request_params_format.
  - intros url charset. unfold cache_key. intros Heq.
    apply (inj (String.append (method req))) in Heq.
    apply (inj (String.append ":")) in Heq.
    apply (inj (String.append url)) in Heq.
    discriminate Heq.
Qed.

(** X20: [cacheMaxAge] matters only to requests that use the cache.  For a
    request whose method is neither [GET] nor [HEAD], or that disables
    caching, the pipeline never parses it: any value, integer or not, gives
    the run of the same request without the parameter. *)
Theorem max_age_ignored_without_caching
    (env : Env) (req : Request) (fmt : string) (clk : Clock) (w : World)
    (v : string) :
  let with_age := {| method := method req;
                     args := <["cacheMaxAge" := v]> (args req) |} in
  let without := {| method := method req;
                    args := delete "cacheMaxAge" (args req) |} in
  uses_cache with_age (request_params with_age fmt) = false ->
  process_request env with_age fmt clk w = process_request env without fmt clk w.
Proof.
  intros with_age without Hu.
  set (p1 := request_params with_age fmt) in *.
  set (p0 := request_params without fmt).
  assert (Hsame : forall k, k <> "cacheMaxAge" -> p1 !! k = p0 !! k).
  { intros k Hk. unfold p1, p0, request_params, with_age, without. simpl.
    destruct (decide (k = "requestMethod")) as [->|H1];
      [by rewrite !lookup_insert_eq|].
    rewrite !(lookup_insert_ne _ "requestMethod") by done.
    destruct (decide (k = "format")) as [->|H2];
      [by rewrite !lookup_insert_eq|].
    rewrite !(lookup_insert_ne _ "format") by done.
    by rewrite lookup_insert_ne, lookup_delete_ne. }
  assert (Hdis : cache_disabled p1 = cache_disabled p0).
  { unfold cache_disabled. by rewrite Hsame. }
  assert (Hu0 : uses_cache without p0 = false).
  { unfold uses_cache in *. change (method without) with (method with_age).
    by rewrite <- Hdis. }
  assert (Hroute : route p1 = route p0).
  { unfold route. by rewrite !Hsame. }
  assert (Hget : forall tr, get_page env p1 tr = get_page env p0 tr).
  { intros tr. apply get_page_ext; try done; by apply Hsame. }
  assert (Hbase : base_headers env p1 (method req) = base_headers env p0 (method req)).
  { unfold base_headers. rewrite Hdis. unfold uses_cache in Hu0.
    change (method without) with (method req) in Hu0.
    destruct (cacheable_method (method req)); [|done].
    apply negb_false_iff in Hu0. by rewrite Hu0. }
  assert (Henc : forall page s n,
            create_response env page p1 (method req) s n
            = create_response env page p0 (method req) s n).
  { intros page s n. apply create_response_ext; try done; try by apply Hsame.
    unfold raw_passthrough. by rewrite Hsame. }
  unfold process_request. fold p1 p0. simpl method.
  destruct (String.eqb (method req) "OPTIONS"); [done|].
  rewrite (Hsame "url") by done.
  destruct (p0 !! "url") as [url|]; [|done].
  rewrite !lookup_bypass by done.
  unfold fetch_and_store. rewrite Hu, Hu0, Hget. simpl method.
  destruct (get_page env p0 (trace w)) as [[page|e] tr']; [|done].
  by rewrite Henc.
Qed.

Lemma max_age_ignored_without_caching_witness :
  let with_age := Demo.request "POST" [("cacheMaxAge", "abc"); ("url", "http://site/")] in
  let without := Demo.request "POST" [("url", "http://site/")] in
  (process_request Demo.env with_age "get" (Demo.clock 1 2 3 4) Demo.fresh_world).1
  = (process_request Demo.env without "get" (Demo.clock 1 2 3 4) Demo.fresh_world).1.
Proof.
  intros with_age without.
  pose proof (max_age_ignored_without_caching Demo.env without "get"
                (Demo.clock 1 2 3 4) Demo.fresh_world "abc") as H.
  exact (f_equal fst (H eq_refl)).
Defined.

(** X21: the CORS hook leaves the body and the media type of a response
    alone, sets [Access-Control-Allow-Origin] to the request's [Origin] (to
    ["*"] when the request has none) and the three fixed CORS headers, and
    keeps every other header of the response. *)
Theorem cors_headers_stamped (origin : option string) (response : Response) :
  let stamped := add_cors_headers origin response in
  body stamped = body response
  /\ mimetype stamped = mimetype response
  /\ Dict.get (headers stamped) "Access-Control-Allow-Origin"
     = Some (VStr (default "*" origin))
  /\ Dict.get (headers stamped) "Access-Control-Allow-Credentials"
     = Some (VStr "true")
  /\ Dict.get (headers stamped) "Access-Control-Allow-Headers"
     = Some (VStr "Origin, X-Requested-With, Content-Type, Content-Encoding, Accept")
  /\ Dict.get (headers stamped) "Access-Control-Allow-Methods"
     = Some (VStr "OPTIONS, GET, POST, PATCH, PUT, DELETE")
  /\ forall k,
       lower k <> "access-control-allow-origin" ->
       lower k <> "access-control-allow-credentials" ->
       lower k <> "access-control-allow-headers" ->
       lower k <> "access-control-allow-methods" ->
       Dict.get (headers stamped) k = Dict.get (headers response) k.
Proof.
  intros stamped. unfold stamped, add_cors_headers. cbv zeta.
  cbn [body mimetype headers].
  split; [done|]. split; [done|].
  split. { rewrite !dict_get_set_ne by done. apply dict_get_set_eq. }
  split. { rewrite !dict_get_set_ne by done. apply dict_get_set_eq. }
  split. { rewrite !dict_get_set_ne by done. apply dict_get_set_eq. }
  split. { apply dict_get_set_eq. }
  intros k H1 H2 H3 H4.
  rewrite !dict_get_set_ne; [done|intros <-; by vm_compute in *..].
Qed.

Lemma cors_headers_stamped_witness :
  let resp := {| body := VStr "{}"; headers := [("Via", VStr "pyroxy-py v1.0.0")];
                 mimetype := Some "application/json" |} in
  Dict.get (headers (add_cors_headers (Some "http://app.example") resp)) "Via"
  = Some (VStr "pyroxy-py v1.0.0")
  /\ Dict.get (headers (add_cors_headers None resp)) "Access-Control-Allow-Origin"
     = Some (VStr "*").
Proof.
  intros resp.
  destruct (cors_headers_stamped (Some "http://app.example") resp)
    as (_ & _ & _ & _ & _ & _ & Hkeep).
  destruct (cors_headers_stamped None resp) as (_ & _ & Horigin & _).
  split; [|exact Horigin].
  rewrite Hkeep; [reflexivity|vm_compute; discriminate..].
Defined.

(** X22: the TTL has a ceiling after all.  For a [GET] or [HEAD] request
    with caching enabled whose lookup misses and whose [cacheMaxAge] is an
    integer [n] with [max(300, n)] at or beyond [2^1024 - 2^970], no
    response is returned: the pipeline raises, the store is left cleared or
    as the lookup left it, and once fetcher and encoder have returned the
    exception is the [OverflowError] of [set]. *)
Theorem oversized_max_age_raises
    (env : Env) (req : Request) (fmt : string) (clk : Clock) (w : World)
    (url v : string) (n : Z) :
  let params := request_params req fmt in
  let key := cache_key (method req) url fmt (params !! "charset") in
  method req = "GET" \/ method req = "HEAD" ->
  args req !! "disableCache" <> Some "true" ->
  args req !! "url" = Some url ->
  args req !! "cacheMaxAge" = Some v ->
  int_of_str env v = Some n ->
  exceeds_float_range (Z.max 300 n) = true ->
  (lookup req params key clk (store w)).1 = None ->
  let run := process_request env req fmt clk w in
  let st := (lookup req params key clk (store w)).2 in
  (exists e, run.1 = Raise e)
  /\ (ResponseCache.cache (store run.2) = ResponseCache.cache st
      \/ ResponseCache.cache (store run.2) = ∅)
  /\ (forall page tr' page' resp,
        get_page env params (trace w) = (Ok page, tr') ->
        create_response env page params (method req) (t_start clk) (t_encode clk)
        = (page', Ok resp) ->
        run.1 = Raise OverflowError).
Proof.
  intros params key Hmethod Hon Hurl Hv Hn Hbig Hmiss run st.
  assert (Hu : uses_cache req params = true) by by apply uses_cache_iff.
  assert (Hm : cacheable_method (method req) = true)
    by by apply cacheable_method_iff.
  assert (Hpurl : params !! "url" = Some url).
  { unfold params. by rewrite request_params_of_args. }
  assert (Hfloor : floor_max_age env params = Ok (Z.max 300 n)).
  { unfold floor_max_age.
    assert (Hr : requested_max_age env params = Ok n).
    { apply requested_max_age_iff. by rewrite Hv. }
    by rewrite Hr. }
  unfold run, st, process_request.
  rewrite (cacheable_not_options _ Hm). fold params. rewrite Hpurl. fold key.
  destruct (lookup req params key clk (store w)) as [[c|] st0]; [done|].
  cbn [snd]. unfold fetch_and_store.
  destruct (get_page env params (trace w)) as [[page|e] tr1].
  2:{ split; [by eexists|]. split; [by left|]. intros ? ? ? ? [=]. }
  destruct (create_response env page params (method req)
              (t_start clk) (t_encode clk)) as [page1 [r|e]] eqn:C.
  2:{ split; [by eexists|]. split; [by left|].
      intros ? ? ? ? [= <- <-] C'. rewrite C in C'. discriminate C'. }
  rewrite Hu, Hfloor. unfold response_cache_set. rewrite Hbig. cbn [fst snd store].
  split; [by eexists|]. split; [|done].
  cbn [ResponseCache.cache].
  destruct (ResponseCache.max_size st0 <=? _); [by right|by left].
Qed.

Lemma oversized_max_age_raises_witness :
  let req := Demo.request "GET"
    [("url", "http://site/"); ("cacheMaxAge", Demo.oversized)] in
  (process_request Demo.env req "get" (Demo.clock 1 2 3 4) Demo.fresh_world).1
  = Raise OverflowError.
Proof.
  intros req.
  destruct (oversized_max_age_raises Demo.env req "get" (Demo.clock 1 2 3 4)
              Demo.fresh_world "http://site/" Demo.oversized (10 ^ 309))
    as (_ & _ & Hraise).
  - by left.
  - discriminate.
  - reflexivity.
  - reflexivity.
  - vm_compute. reflexivity.
  - vm_compute. reflexivity.
  - reflexivity.
  - eapply Hraise; vm_compute; reflexivity.
Defined.

(** ** Exceptions of the transport that are not [RequestException]s *)

Section TransportRaises.
Variable env : Env.

(** No fetcher catches them: one outbound call, and the exception leaves
    [get_page]. *)
Lemma get_page_transport_raises (params : gmap string string) (tr : list Event)
    (e : exn) :
  (forall m, session_request env tr m (params !! "url") = HttpRaises e) ->
  get_page env params tr
  = (Raise e, tr ++ [EvRequest (outbound_method params) (params !! "url")]).
Proof.
  intros Hraise.
  unfold get_page, outbound_method, get_page_info, get_raw_page, get_page_contents.
  destruct (route params); by rewrite Hraise.
Qed.

End TransportRaises.

(** X23: an exception of [session.request] that is not a
    [RequestException] (urllib3's [LocationParseError], for one) is caught
    nowhere.  For a request with a [url], a method other than [OPTIONS] and
    a lookup that misses, whatever the format, it leaves [process_request]
    after the one outbound call, and nothing is stored. *)
Theorem transport_exception_escapes
    (env : Env) (req : Request) (fmt : string) (clk : Clock) (w : World)
    (url : string) (e : exn) :
  let params := request_params req fmt in
  let key := cache_key (method req) url fmt (params !! "charset") in
  method req <> "OPTIONS" ->
  args req !! "url" = Some url ->
  (lookup req params key clk (store w)).1 = None ->
  (forall m, session_request env (trace w) m (Some url) = HttpRaises e) ->
  process_request env req fmt clk w
  = (Raise e,
     {| store := (lookup req params key clk (store w)).2;
        trace := trace w ++ [EvRequest (outbound_method params) (Some url)] |}).
Proof.
  intros params key Hopt Hurl Hmiss Hraise.
  apply String.eqb_neq in Hopt.
  assert (Hpurl : params !! "url" = Some url).
  { unfold params. by rewrite request_params_of_args. }
  rewrite <- Hpurl in Hraise.
  unfold process_request. rewrite Hopt. fold params. rewrite Hpurl. fold key.
  destruct (lookup req params key clk (store w)) as [[c|] st]; [done|].
  unfold fetch_and_store.
  by rewrite (get_page_transport_raises env params (trace w) e Hraise), Hpurl.
Qed.

Lemma transport_exception_escapes_witness :
  let req := Demo.request "GET" [("url", "http://a..b/")] in
  process_request Demo.env req "json" (Demo.clock 1 2 3 4) Demo.fresh_world
  = (Raise (OtherError "LocationParseError"),
     {| store := store Demo.fresh_world;
        trace := [EvRequest "GET" (Some "http://a..b/")] |}).
Proof.
  intros req.
  apply (transport_exception_escapes Demo.env req "json" (Demo.clock 1 2 3 4)
           Demo.fresh_world "http://a..b/" (OtherError "LocationParseError")).
  - discriminate.
  - reflexivity.
  - reflexivity.
  - intros m. reflexivity.
Defined.
